(** * fastgraphql: the schema registry, its rendering and the call-time wrapper

    A shallow embedding of [fastgraphql/schema.py] and of the wrapper built by
    [FastGraphQL._graphql_function] in [fastgraphql/application.py].

    Python [str] values are modelled by [string] (sequences of 8-bit
    characters, compared by character code as Python compares code points),
    insertion-ordered [dict]s by association lists, exceptions by an explicit
    [result] type, and the mutable registry by state passing. *)

From Stdlib Require Import String Ascii List Bool Arith NArith ZArith Lia.
From Stdlib Require Import Sorting.Sorted Sorting.Permutation Relations.
From Stdlib Require Import Classes.RelationClasses.
Import ListNotations.

Local Open Scope list_scope.
Local Open Scope string_scope.

Set Implicit Arguments.

(* ================================================================== *)
(** * Python strings *)
(* ================================================================== *)

Module PyStr.

Definition NL : string := String (ascii_of_nat 10) EmptyString.
Definition TAB : string := String (ascii_of_nat 9) EmptyString.

(** [sep.join(parts)] *)
Definition join (sep : string) (parts : list string) : string :=
  String.concat sep parts.

(** [str.isspace] on one ASCII character: TAB, LF, VT, FF, CR,
    FS, GS, RS, US and the space. *)
Definition isspace (c : ascii) : bool :=
  let n := nat_of_ascii c in
  (Nat.leb 9 n && Nat.leb n 13) || (Nat.leb 28 n && Nat.leb n 32).

(** [s.lstrip()] *)
Fixpoint lstrip (s : string) : string :=
  match s with
  | EmptyString => EmptyString
  | String c s' => if isspace c then lstrip s' else s
  end.

(** [s.rstrip()] *)
Fixpoint rstrip (s : string) : string :=
  match s with
  | EmptyString => EmptyString
  | String c s' =>
      match rstrip s' with
      | EmptyString => if isspace c then EmptyString else String c EmptyString
      | r => String c r
      end
  end.

(** [s.strip()] *)
Definition strip (s : string) : string := rstrip (lstrip s).

(** [len(s)] used as a truth value, and the truth value of a [str]. *)
Definition truthy (s : string) : bool :=
  match s with EmptyString => false | String _ _ => true end.

(** [a < b] and [a <= b] on [str]. *)
Definition lt (a b : string) : bool := String.ltb a b.
Definition le (a b : string) : bool := String.leb a b.

End PyStr.

Import PyStr.

(* ================================================================== *)
(** * Exceptions *)
(* ================================================================== *)

Inductive exn : Type :=
| GraphQLSchemaException (msg : string)
| KeyError (key : string)
| AssertionError
| NotImplementedError
| UnsupportedTypeError (declaration : string)
| UserException (what : string).   (* raised inside a user callable *)

Inductive result (A : Type) : Type :=
| Ok (a : A)
| Raise (e : exn).

Arguments Ok {A} a.
Arguments Raise {A} e.

(* ================================================================== *)
(** * Code that returns or raises while changing a state *)
(* ================================================================== *)

Definition Eff (S A : Type) : Type := S -> result A * S.

Definition ret {S A} (a : A) : Eff S A := fun s => (Ok a, s).
Definition raise {S A} (e : exn) : Eff S A := fun s => (Raise e, s).
Definition bind {S A B} (m : Eff S A) (k : A -> Eff S B) : Eff S B :=
  fun s => match m s with
           | (Ok a, s') => k a s'
           | (Raise e, s') => (Raise e, s')
           end.
Definition read {S A} (f : S -> A) : Eff S A := fun s => (Ok (f s), s).
Definition write {S} (f : S -> S) : Eff S unit := fun s => (Ok tt, f s).

Notation "x <- m ;; k" := (bind m (fun x => k))
  (at level 61, m at next level, right associativity).
Notation "m ;; k" := (bind m (fun _ => k))
  (at level 61, right associativity).
Notation "'when' c 'then' 'raise' e ;; k" :=
  (bind (read c) (fun b : bool => if b then raise e else k))
  (at level 61, c at level 9, e at level 9, right associativity).

(* ================================================================== *)
(** * Insertion-ordered dictionaries keyed by [str] *)
(* ================================================================== *)

Module Dict.

Definition t (V : Type) : Type := list (string * V).

Definition empty {V} : t V := [].

(** [k in d] *)
Fixpoint contains {V} (k : string) (d : t V) : bool :=
  match d with
  | [] => false
  | (k', _) :: d' => if String.eqb k k' then true else contains k d'
  end.

(** [d[k]], [None] standing for the [KeyError] *)
Fixpoint get {V} (k : string) (d : t V) : option V :=
  match d with
  | [] => None
  | (k', v) :: d' => if String.eqb k k' then Some v else get k d'
  end.

(** [d[k] = v]: an existing key keeps its position, a new key goes last *)
Fixpoint set {V} (k : string) (v : V) (d : t V) : t V :=
  match d with
  | [] => [(k, v)]
  | (k', v') :: d' =>
      if String.eqb k k' then (k', v) :: d' else (k', v') :: set k v d'
  end.

Definition keys {V} (d : t V) : list string := map fst d.

(** [d.values()], in insertion order *)
Definition values {V} (d : t V) : list V := map snd d.

(** [len(d)] *)
Definition len {V} (d : t V) : nat := List.length d.

End Dict.

(* ================================================================== *)
(** * [sorted(xs, key=...)] with [str] keys *)
(* ================================================================== *)

Section Sorted.

Variable A : Type.
Variable key : A -> string.

(** [x] is put in front of the first element whose key is not smaller;
    elements with equal keys keep their relative order (the sort is
    stable, as Python's is). *)
Fixpoint insert_sorted (x : A) (l : list A) : list A :=
  match l with
  | [] => [x]
  | y :: l' => if PyStr.le (key x) (key y) then x :: l
               else y :: insert_sorted x l'
  end.

Fixpoint sorted (l : list A) : list A :=
  match l with
  | [] => []
  | x :: l' => insert_sorted x (sorted l')
  end.

Definition key_le (a b : A) : Prop := PyStr.le (key a) (key b) = true.

End Sorted.

(* ================================================================== *)
(** * The type node model *)
(* ================================================================== *)

(** [GraphQLReference] *)
Record GraphQLReference : Type := mkReference
  { reference : string;
    nullable : bool }.

(** [GraphQLScalar] and its subclasses; only the name and the
    [_default_scalar] flag are kept (the encoder and decoder are read by no
    operation modelled here). *)
Record GraphQLScalar : Type := mkScalar
  { scalar_name : string;
    _default_scalar : bool }.

(** The subclasses of [GraphQLDataType].  [GraphQLType] holds a list of
    [GraphQLTypeAttribute], each of which holds a [GraphQLDataType]. *)
Inductive GraphQLDataType : Type :=
| DReference (r : GraphQLReference)
| DType (t : GraphQLType)
| DArray (item_type : GraphQLDataType)
| DScalar (s : GraphQLScalar)
with GraphQLType : Type :=
| mkType (name : string) (attrs : list GraphQLTypeAttribute) (as_input : bool)
with GraphQLTypeAttribute : Type :=
| mkAttribute (name : string) (attr_type : GraphQLDataType).

Definition type_name (t : GraphQLType) : string :=
  match t with mkType n _ _ => n end.
Definition type_attrs (t : GraphQLType) : list GraphQLTypeAttribute :=
  match t with mkType _ a _ => a end.
Definition type_as_input (t : GraphQLType) : bool :=
  match t with mkType _ _ i => i end.

(** [GraphQLType.add_attribute] *)
Definition add_attribute (t : GraphQLType) (field : GraphQLTypeAttribute)
  : GraphQLType :=
  match t with mkType n a i => mkType n (a ++ [field])%list i end.

(** [GraphQLReference.render] *)
Definition GraphQLReference_render (r : GraphQLReference) : string :=
  reference r ++ (if nullable r then "" else "!").

(** [GraphQLScalar.render] *)
Definition GraphQLScalar_render (s : GraphQLScalar) : string :=
  "scalar " ++ scalar_name s.

(** The f-string of [GraphQLType.render], before [.strip()]. *)
Definition type_template (decl name body : string) : string :=
  NL ++ decl ++ " " ++ name ++ " {" ++ NL ++
  "    " ++ body ++ NL ++
  "}" ++ NL ++
  "        ".

(** [render] on each subclass of [GraphQLDataType], and
    [GraphQLTypeAttribute.render]. *)
Fixpoint GraphQLDataType_render (d : GraphQLDataType) : string :=
  match d with
  | DReference r => GraphQLReference_render r
  | DType t => GraphQLType_render t
  | DArray item => "[" ++ GraphQLDataType_render item ++ "]"
  | DScalar s => GraphQLScalar_render s
  end
with GraphQLType_render (t : GraphQLType) : string :=
  match t with
  | mkType name attrs as_input =>
      let separator := NL ++ "    " in
      let decl := if as_input then "input" else "type" in
      strip (type_template decl name
               (join separator
                  ((fix renders (l : list GraphQLTypeAttribute) : list string :=
                      match l with
                      | [] => []
                      | a :: l' => GraphQLTypeAttribute_render a :: renders l'
                      end) attrs)))
  end
with GraphQLTypeAttribute_render (a : GraphQLTypeAttribute) : string :=
  match a with
  | mkAttribute name attr_type => name ++ ": " ++ GraphQLDataType_render attr_type
  end.

(** [GraphQLArray.render] *)
Definition GraphQLArray_render (item_type : GraphQLDataType) : string :=
  GraphQLDataType_render (DArray item_type).

(** [ref(nullable)] on each subclass; [GraphQLReference] inherits the
    [GraphQLDataType.ref] that raises. *)
Definition GraphQLDataType_ref (d : GraphQLDataType) (nullable : bool)
  : result GraphQLReference :=
  match d with
  | DReference _ => Raise NotImplementedError
  | DType t => Ok (mkReference (type_name t) nullable)
  | DArray item => Ok (mkReference (GraphQLArray_render item) nullable)
  | DScalar s => Ok (mkReference (scalar_name s) nullable)
  end.

(** The built-in scalars. *)
Definition GraphQLBoolean : GraphQLScalar := mkScalar "Boolean" true.
Definition GraphQLInteger : GraphQLScalar := mkScalar "Int" true.
Definition GraphQLString : GraphQLScalar := mkScalar "String" true.
Definition GraphQLFloat : GraphQLScalar := mkScalar "Float" true.
Definition GraphQLID : GraphQLScalar := mkScalar "ID" true.
Definition GraphQLDateTime : GraphQLScalar := mkScalar "DateTime" false.
Definition GraphQLDate : GraphQLScalar := mkScalar "Date" false.
Definition GraphQLTime : GraphQLScalar := mkScalar "Time" false.


(* ================================================================== *)
(** * Values that travel through the call-time wrapper *)
(* ================================================================== *)

(** The Python values a GraphQL engine hands to a resolver. *)
#[warnings="-register-all"] Inductive PyVal : Type :=
| PyNone
| PyBool (b : bool)
| PyInt (n : Z)
| PyString (s : string)
| PyList (l : list PyVal).

(** [value is not None] *)
Definition is_not_None (v : PyVal) : bool :=
  match v with PyNone => false | _ => true end.

(** A Python callable of one argument: it returns or raises. *)
Definition Callable : Type := PyVal -> result PyVal.

(** [str(x)] inside an f-string, for an [Optional[str]]. *)
Definition format_optional (name : option string) : string :=
  match name with Some n => n | None => "None" end.

(* ================================================================== *)
(** * Function nodes *)
(* ================================================================== *)

(** [InjectedFunctionParameter] *)
Record InjectedFunctionParameter : Type := mkInjected
  { injected_resolver : option Callable;
    injected_name : option string }.

(** [GraphQLFunctionField]: an [InjectedFunctionParameter] (fields
    [resolver], [name]) extended with [type] and [python_name]. *)
Record GraphQLFunctionField : Type := mkField
  { field_resolver : option Callable;
    field_name : option string;
    field_type : option GraphQLDataType;
    python_name : string }.

(** [GraphQLFunctionField.render]; [assert self.type] fails on [None]. *)
Definition GraphQLFunctionField_render (p : GraphQLFunctionField)
  : result string :=
  match field_type p with
  | None => Raise AssertionError
  | Some ty => Ok (format_optional (field_name p) ++ ": " ++ GraphQLDataType_render ty)
  end.

(** [GraphQLFunction]; the [resolver] slot, which receives the wrapper after
    registration, is read by the engine binding only and is left out. *)
Record GraphQLFunction : Type := mkFunction
  { function_name : string;
    return_type : GraphQLDataType;
    parameters : list GraphQLFunctionField;
    injected_parameters : list InjectedFunctionParameter }.

(** [GraphQLFunction.add_parameter] *)
Definition add_parameter (self : GraphQLFunction)
  (parameter : GraphQLFunctionField) : GraphQLFunction :=
  mkFunction (function_name self) (return_type self)
    (parameters self ++ [parameter])%list (injected_parameters self).

(** [GraphQLFunction.add_injected_parameter] *)
Definition add_injected_parameter (self : GraphQLFunction)
  (parameter : InjectedFunctionParameter) : GraphQLFunction :=
  mkFunction (function_name self) (return_type self)
    (parameters self) (injected_parameters self ++ [parameter])%list.

(** [[f(x) for x in xs]] where [f] may raise: the first exception wins. *)
Fixpoint comprehension {A B} (f : A -> result B) (xs : list A)
  : result (list B) :=
  match xs with
  | [] => Ok []
  | x :: xs' =>
      match f x with
      | Raise e => Raise e
      | Ok y => match comprehension f xs' with
                | Raise e => Raise e
                | Ok ys => Ok (y :: ys)
                end
      end
  end.

(** [GraphQLFunction.render] *)
Definition GraphQLFunction_render (f : GraphQLFunction) : result string :=
  match comprehension GraphQLFunctionField_render (parameters f) with
  | Raise e => Raise e
  | Ok rendered =>
      let parameters := join ", " rendered in
      let parameters :=
        if truthy parameters then "(" ++ parameters ++ ")" else parameters in
      Ok (function_name f ++ parameters ++ ": "
          ++ GraphQLDataType_render (return_type f))
  end.

(* ================================================================== *)
(** * The schema registry *)
(* ================================================================== *)

(** [Union[GraphQLType, GraphQLScalar]] *)
Inductive GT : Type :=
| GTType (t : GraphQLType)
| GTScalar (s : GraphQLScalar).

Definition GT_name (x : GT) : string :=
  match x with GTType t => type_name t | GTScalar s => scalar_name s end.

Definition GT_render (x : GT) : string :=
  match x with GTType t => GraphQLType_render t | GTScalar s => GraphQLScalar_render s end.

(** [isinstance(x, GraphQLScalar)] *)
Definition is_GraphQLScalar (x : GT) : bool :=
  match x with GTScalar _ => true | GTType _ => false end.

(** [GraphQLSchema] *)
Record GraphQLSchema : Type := mkSchema
  { types : Dict.t GraphQLType;
    scalars : Dict.t GraphQLScalar;
    inputs : Dict.t GraphQLType;
    queries : Dict.t GraphQLFunction;
    mutations : Dict.t GraphQLFunction }.

(** [GraphQLSchema.__init__] *)
Definition GraphQLSchema_init : GraphQLSchema :=
  mkSchema Dict.empty Dict.empty Dict.empty Dict.empty Dict.empty.

(** A method that reads or writes the registry: it returns or raises, and
    leaves a registry behind in both cases. *)
Definition Method (A : Type) : Type := Eff GraphQLSchema A.

Definition name_conflict (name kind : string) : exn :=
  GraphQLSchemaException
    ("Name " ++ name ++ " is already used " ++ kind
       ++ ". Please specify another name!").

(** [GraphQLSchema.check_type_name_conflict] *)
Definition check_type_name_conflict (graphql_type : GT) : Method unit :=
  let name := GT_name graphql_type in
  when (fun self => Dict.contains name (inputs self))
    then raise (name_conflict name "as an input") ;;
  when (fun self => Dict.contains name (types self))
    then raise (name_conflict name "as an type") ;;
  when (fun self => Dict.contains name (scalars self)
                    && negb (is_GraphQLScalar graphql_type))
    then raise (name_conflict name "as an scalar") ;;
  ret tt.

(** [GraphQLSchema.check_function_name_conflict] *)
Definition check_function_name_conflict (graphql_type : GraphQLFunction)
  : Method unit :=
  let name := function_name graphql_type in
  when (fun self => Dict.contains name (queries self))
    then raise (name_conflict name "for a query") ;;
  when (fun self => Dict.contains name (mutations self))
    then raise (name_conflict name "for a mutation") ;;
  ret tt.

Definition set_types (f : Dict.t GraphQLType -> Dict.t GraphQLType)
  (self : GraphQLSchema) : GraphQLSchema :=
  mkSchema (f (types self)) (scalars self) (inputs self) (queries self) (mutations self).
Definition set_scalars (f : Dict.t GraphQLScalar -> Dict.t GraphQLScalar)
  (self : GraphQLSchema) : GraphQLSchema :=
  mkSchema (types self) (f (scalars self)) (inputs self) (queries self) (mutations self).
Definition set_inputs (f : Dict.t GraphQLType -> Dict.t GraphQLType)
  (self : GraphQLSchema) : GraphQLSchema :=
  mkSchema (types self) (scalars self) (f (inputs self)) (queries self) (mutations self).
Definition set_queries (f : Dict.t GraphQLFunction -> Dict.t GraphQLFunction)
  (self : GraphQLSchema) : GraphQLSchema :=
  mkSchema (types self) (scalars self) (inputs self) (f (queries self)) (mutations self).
Definition set_mutations (f : Dict.t GraphQLFunction -> Dict.t GraphQLFunction)
  (self : GraphQLSchema) : GraphQLSchema :=
  mkSchema (types self) (scalars self) (inputs self) (queries self) (f (mutations self)).

(** [GraphQLSchema.add_type] *)
Definition add_type (graphql_type : GraphQLType) : Method unit :=
  check_type_name_conflict (GTType graphql_type) ;;
  write (set_types (Dict.set (type_name graphql_type) graphql_type)).

(** [GraphQLSchema.add_scalar] *)
Definition add_scalar (graphql_type : GraphQLScalar) : Method unit :=
  check_type_name_conflict (GTScalar graphql_type) ;;
  write (set_scalars (Dict.set (scalar_name graphql_type) graphql_type)).

(** [GraphQLSchema.add_input_type] *)
Definition add_input_type (graphql_type : GraphQLType) : Method unit :=
  check_type_name_conflict (GTType graphql_type) ;;
  write (set_inputs (Dict.set (type_name graphql_type) graphql_type)).

(** [GraphQLSchema.add_query] *)
Definition add_query (graphql_query : GraphQLFunction) : Method unit :=
  check_function_name_conflict graphql_query ;;
  write (set_queries (Dict.set (function_name graphql_query) graphql_query)).

(** [GraphQLSchema.add_mutation] *)
Definition add_mutation (graphql_mutation : GraphQLFunction) : Method unit :=
  check_function_name_conflict graphql_mutation ;;
  write (set_mutations (Dict.set (function_name graphql_mutation) graphql_mutation)).

(** ** [GraphQLSchema.render] *)

(** The truth value of an object whose class defines neither [__bool__] nor
    [__len__], as [GraphQLFunction] does. *)
Definition object_truth {A} (_ : A) : bool := true.

(** [any(xs)] *)
Definition any {A} (xs : list A) : bool := existsb object_truth xs.

(** [sort_and_write], local to [render] *)
Definition sort_and_write (separator : string) (types : list GT) : string :=
  let sorted_types := sorted GT_name types in
  join separator (map GT_render sorted_types).

(** The f-string of [sort_and_write_functions], before [.strip()]. *)
Definition functions_template (decl queries_str : string) : string :=
  NL ++ "type " ++ decl ++ " {" ++ NL ++
  "    " ++ queries_str ++ NL ++
  "}".

(** [sort_and_write_functions], local to [render] *)
Definition sort_and_write_functions (functions : list GraphQLFunction)
  (as_mutation : bool) : result string :=
  if negb (any functions) then Ok ""
  else
    let decl := if as_mutation then "Mutation" else "Query" in
    let sorted_types := sorted function_name functions in
    match comprehension GraphQLFunction_render sorted_types with
    | Raise e => Raise e
    | Ok rendered =>
        let queries_str := join (NL ++ TAB) rendered in
        Ok (strip (functions_template decl queries_str))
    end.

(** [GraphQLSchema.render] *)
Definition render (self : GraphQLSchema) : result string :=
  let separator := NL ++ NL in
  let s1 := sort_and_write separator (map GTScalar (Dict.values (scalars self))) in
  let s2 := sort_and_write separator (map GTType (Dict.values (types self))) in
  let s3 := sort_and_write separator (map GTType (Dict.values (inputs self))) in
  match sort_and_write_functions (Dict.values (queries self)) false with
  | Raise e => Raise e
  | Ok s4 =>
      match sort_and_write_functions (Dict.values (mutations self)) true with
      | Raise e => Raise e
      | Ok s5 =>
          Ok (join separator
                (filter (fun s => negb (String.length s =? 0)%nat)
                   [s1; s2; s3; s4; s5]))
      end
  end.

(* ================================================================== *)
(** * The call-time wrapper of [FastGraphQL._graphql_function] *)
(* ================================================================== *)

(** What a run of the wrapper does to the outside: it invokes resolvers
    and, at the end, the decorated callable. *)
Inductive event : Type :=
| ResolverCall (name : string) (input : PyVal)
| FuncCall (kwargs : Dict.t PyVal).

Definition Run (A : Type) : Type := Eff (list event) A.

(** Invoking a callable: the call is recorded, its outcome is the run's. *)
Definition invoke {A} (ev : event) (outcome : result A) : Run A :=
  fun trace => (outcome, (trace ++ [ev])%list).

(** [assert x] *)
Definition assert (b : bool) : Run unit :=
  if b then ret tt else raise AssertionError.

(** [kwargs[name]] *)
Definition subscript (kwargs : Dict.t PyVal) (name : string) : Run PyVal :=
  match Dict.get name kwargs with
  | Some v => ret v
  | None => raise (KeyError name)
  end.

(** The truth value of an [Optional[str]]. *)
Definition optional_truthy (name : option string) : bool :=
  match name with Some n => truthy n | None => false end.

(** [InjectedFunctionParameter.resolve], inherited by
    [GraphQLFunctionField]. *)
Definition InjectedFunctionParameter_resolve (self : GraphQLFunctionField)
  (input : PyVal) : Run PyVal :=
  match field_resolver self with
  | Some r => invoke (ResolverCall (format_optional (field_name self)) input) (r input)
  | None => ret input
  end.

(** The [for parameter in graphql_type.parameters] loop of [_decorator],
    started with the [resolved_kwargs] built so far. *)
Fixpoint for_parameters (parameters : list GraphQLFunctionField)
  (kwargs resolved_kwargs : Dict.t PyVal) : Run (Dict.t PyVal) :=
  match parameters with
  | [] => ret resolved_kwargs
  | parameter :: rest =>
      let python_name := python_name parameter in
      let name := field_name parameter in
      assert (truthy python_name) ;;
      assert (optional_truthy name) ;;
      value <- subscript kwargs (format_optional name) ;;
      resolved <- (if is_not_None value
                   then InjectedFunctionParameter_resolve parameter value
                   else ret PyNone) ;;
      for_parameters rest kwargs (Dict.set python_name resolved resolved_kwargs)
  end.

(** [_decorator], called with keyword arguments [kwargs]; the positional
    arguments are not read. *)
Definition _decorator (graphql_type : GraphQLFunction)
  (func : Dict.t PyVal -> result PyVal) (kwargs : Dict.t PyVal) : Run PyVal :=
  resolved_kwargs <- for_parameters (parameters graphql_type) kwargs Dict.empty ;;
  invoke (FuncCall resolved_kwargs) (func resolved_kwargs).

(* ================================================================== *)
(** * The type introspection engine *)
(* ================================================================== *)

Module TypeIntrospection.

(** The primitive kinds of step 3. *)
Inductive Primitive : Type :=
| Pint | Pstr | Pfloat | Pbool | Pdate | Pdatetime | Ptime.

(** A host-language type declaration: a primitive, an optional wrapper,
    a sequence, a structured model with its identifier and named fields,
    or anything else. *)
#[warnings="-register-all"] Inductive Declaration : Type :=
| Prim (p : Primitive)
| OptionalOf (T : Declaration)
| SequenceOf (T : Declaration)
| Model (identifier : string) (fields : list (string * Declaration))
| Other (identifier : string).

Definition scalar_of (p : Primitive) : GraphQLScalar :=
  match p with
  | Pint => GraphQLInteger
  | Pstr => GraphQLString
  | Pfloat => GraphQLFloat
  | Pbool => GraphQLBoolean
  | Pdate => GraphQLDate
  | Pdatetime => GraphQLDateTime
  | Ptime => GraphQLTime
  end.

Definition is_optional (d : Declaration) : bool :=
  match d with OptionalOf _ => true | _ => false end.

(** The engine's mode flag selects the map of step 4. *)
Definition registered (input_mode : bool) (name : string)
  : Method (option GraphQLType) :=
  read (fun s => Dict.get name (if input_mode then inputs s else types s)).

Definition register (input_mode : bool) (t : GraphQLType) : Method unit :=
  if input_mode then add_input_type t else add_type t.

(** Appending an attribute to the NamedType registered under [name]. *)
Definition append_attribute (input_mode : bool) (name : string)
  (a : GraphQLTypeAttribute) : Method unit :=
  let upd d := match Dict.get name d with
               | Some t => Dict.set name (add_attribute t a) d
               | None => d
               end in
  write (if input_mode then set_inputs upd else set_types upd).

Definition lift {A} (r : result A) : Method A := fun s => (r, s).

Definition excluded_attr (name : string) (excluded : list string) : bool :=
  existsb (String.eqb name) excluded.

(** Modelled from the spec: the type introspection engine
    ([fastgraphql/factory.py], [GraphQLTypeFactory.create_graphql_type])
    is not among the sources.  This is the algorithm of section 4.1,
    steps 1 to 5, with contract
    [resolve(declaration, excludedAttrNames, explicitName) ->
     (TypeReferenceable, nullable)], over the registry and the type nodes
    of [schema.py].  Wrappers pass the excluded names and the explicit
    name on to the wrapped declaration; the fields of a model are
    resolved with neither. *)
Fixpoint resolve (input_mode : bool) (declaration : Declaration)
  (excludedAttrNames : list string) (explicitName : option string)
  : Method (GraphQLDataType * bool) :=
  match declaration with
  | OptionalOf T =>
      (* step 1: T's result, with nullable = true *)
      r <- resolve input_mode T excludedAttrNames explicitName ;;
      ret (fst r, true)
  | SequenceOf T =>
      (* step 2: the inner reference carries the element's nullability *)
      r <- resolve input_mode T excludedAttrNames explicitName ;;
      inner <- lift (GraphQLDataType_ref (fst r) (snd r)) ;;
      ret (DArray (DReference inner), false)
  | Prim p =>
      (* step 3 *)
      ret (DScalar (scalar_of p), false)
  | Model identifier fields =>
      (* step 4 *)
      let name := match explicitName with Some n => n | None => identifier end in
      existing <- registered input_mode name ;;
      match existing with
      | Some t => ret (DType t, false)
      | None =>
          register input_mode (mkType name [] input_mode) ;;
          (fix each_field (fs : list (string * Declaration)) : Method unit :=
             match fs with
             | [] => ret tt
             | (fname, ftype) :: rest =>
                 if excluded_attr fname excludedAttrNames then each_field rest
                 else
                   r <- resolve input_mode ftype [] None ;;
                   ref <- lift (GraphQLDataType_ref (fst r) (snd r)) ;;
                   append_attribute input_mode name
                     (mkAttribute fname (DReference ref)) ;;
                   each_field rest
             end) fields ;;
          final <- registered input_mode name ;;
          match final with
          | Some t => ret (DType t, false)
          | None => raise (KeyError name)
          end
      end
  | Other identifier =>
      (* step 5 *)
      raise (UnsupportedTypeError identifier)
  end.

End TypeIntrospection.

(* ================================================================== *)
(** * Vocabulary of the statements *)
(* ================================================================== *)

(** The keyword that opens a rendered type. *)
Definition decl_of (as_input : bool) : string :=
  if as_input then "input" else "type".

(** A schema parameter that carries a type. *)
Definition has_type (p : GraphQLFunctionField) : bool :=
  match field_type p with Some _ => true | None => false end.

(** The text [name: Type] of a schema parameter. *)
Definition field_text (p : GraphQLFunctionField) : string :=
  format_optional (field_name p) ++ ": "
  ++ match field_type p with
     | Some ty => GraphQLDataType_render ty
     | None => ""
     end.

(** Every parameter of the function carries a type. *)
Definition well_typed (f : GraphQLFunction) : bool :=
  forallb has_type (parameters f).

(** ** The rendered schema, piece by piece *)

(** The signature line of a function node. *)
Definition signature (f : GraphQLFunction) : string :=
  function_name f
  ++ match parameters f with
     | [] => ""
     | _ :: _ => "(" ++ join ", " (map field_text (parameters f)) ++ ")"
     end
  ++ ": " ++ GraphQLDataType_render (return_type f).

(** A section of the rendered schema: nothing when there is no entity,
    else the entities' texts, one blank line between two of them. *)
Definition section_text (rendered : list string) : list string :=
  match rendered with
  | [] => []
  | _ :: _ => [join (NL ++ NL) rendered]
  end.

(** The [Query] or [Mutation] block: nothing when there is no function,
    else one block holding the signatures as the code joins them. *)
Definition block_text (decl : string) (signatures : list string) : list string :=
  match signatures with
  | [] => []
  | _ :: _ => ["type " ++ decl ++ " {" ++ NL
               ++ "    " ++ join (NL ++ TAB) signatures ++ NL ++ "}"]
  end.

(** The functions of the registry all have typed parameters. *)
Definition functions_well_typed (self : GraphQLSchema) : bool :=
  forallb well_typed (Dict.values (queries self))
  && forallb well_typed (Dict.values (mutations self)).

(** ** The wrapper, parameter by parameter *)

(** The value handed on for parameter [p] when the incoming value is [v]:
    null for null, the resolver's result when there is a resolver, [v]
    itself otherwise. *)
Definition forwarded (p : GraphQLFunctionField) (v : PyVal) : PyVal :=
  if is_not_None v then
    match field_resolver p with
    | Some r => match r v with Ok v' => v' | Raise _ => PyNone end
    | None => v
    end
  else PyNone.

(** The resolver invocation caused by parameter [p] on incoming value [v]. *)
Definition resolver_call (p : GraphQLFunctionField) (v : PyVal) : list event :=
  if is_not_None v then
    match field_resolver p with
    | Some _ => [ResolverCall (format_optional (field_name p)) v]
    | None => []
    end
  else [].

(** The incoming value of parameter [p], null when there is none. *)
Definition incoming (kwargs : Dict.t PyVal) (p : GraphQLFunctionField) : PyVal :=
  match Dict.get (format_optional (field_name p)) kwargs with
  | Some v => v
  | None => PyNone
  end.

(** Parameter [p] goes through one turn of the loop without an exception:
    both names are set, the schema name is a key of [kwargs], and the
    resolver, when it is invoked, returns. *)
Definition binds (kwargs : Dict.t PyVal) (p : GraphQLFunctionField) : bool :=
  truthy (python_name p) && optional_truthy (field_name p)
  && match Dict.get (format_optional (field_name p)) kwargs with
     | None => false
     | Some v =>
         negb (is_not_None v)
         || match field_resolver p with
            | Some r => match r v with Ok _ => true | Raise _ => false end
            | None => true
            end
     end.


(** The keyword arguments built from [parameters], starting from [acc]. *)
Definition bound_kwargs (parameters : list GraphQLFunctionField)
  (kwargs acc : Dict.t PyVal) : Dict.t PyVal :=
  fold_left
    (fun acc p => Dict.set (python_name p) (forwarded p (incoming kwargs p)) acc)
    parameters acc.

(** The resolver invocations caused by [parameters], in order. *)
Definition resolver_calls (parameters : list GraphQLFunctionField)
  (kwargs : Dict.t PyVal) : list event :=
  flat_map (fun p => resolver_call p (incoming kwargs p)) parameters.


(** ** Sample data *)

Definition get_signature : GraphQLFunction :=
  mkFunction "get"
    (DReference (mkReference "M" false))
    [mkField None (Some "m") (Some (DReference (mkReference "MInput" false))) "m";
     mkField None (Some "limit") (Some (DReference (mkReference "Int" true))) "limit"]
    [].

(** A registry that holds the scalar [Date] and nothing else. *)
Definition date_schema : GraphQLSchema :=
  mkSchema Dict.empty [("Date", GraphQLDate)] Dict.empty Dict.empty Dict.empty.

(** A registry that holds the query [get] and nothing else. *)
Definition get_schema : GraphQLSchema :=
  mkSchema Dict.empty Dict.empty Dict.empty [("get", get_signature)] Dict.empty.

(** An object type named like the scalar [Date]. *)
Definition date_type : GraphQLType := mkType "Date" [] false.

(** A registry with a scalar, an object type, an input type, two queries
    and no mutation. *)
Definition sample_schema : GraphQLSchema :=
  mkSchema
    [("M", mkType "M" [mkAttribute "t_int" (DReference (mkReference "Int" false))] false)]
    [("Date", GraphQLDate)]
    [("MInput", mkType "MInput" [mkAttribute "t_int" (DReference (mkReference "Int" false))] true)]
    [("get", get_signature);
     ("all", mkFunction "all" (DReference (mkReference "[M!]" false)) [] [])]
    Dict.empty.

(** A decoder in the manner of the [Date] scalar's: it parses one date and
    raises on any other input. *)
Definition decode_date : Callable :=
  fun v => match v with
           | PyString "2020-01-31" => Ok (PyInt 20200131%Z)
           | _ => Raise (UserException "ValueError")
           end.

(** [find(day: Date!, page: Int): M!], whose first parameter is bound to
    the host name [on_day] and decoded. *)
Definition find_signature : GraphQLFunction :=
  mkFunction "find"
    (DReference (mkReference "M" false))
    [mkField (Some decode_date) (Some "day")
       (Some (DReference (mkReference "Date" false))) "on_day";
     mkField None (Some "page") (Some (DReference (mkReference "Int" true))) "page"]
    [].

(** A decorated callable: it answers with the list of the values it gets. *)
Definition echo (kwargs : Dict.t PyVal) : result PyVal :=
  Ok (PyList (Dict.values kwargs)).

(** Incoming keyword arguments: a date and an explicit null page. *)
Definition kwargs_null_page : Dict.t PyVal :=
  [("day", PyString "2020-01-31"); ("page", PyNone)].




(* ================================================================== *)
(** * The registry as a whole *)
(* ================================================================== *)

(** The name is held by no input type, object type or scalar. *)
Definition type_name_free (self : GraphQLSchema) (name : string) : bool :=
  negb (Dict.contains name (inputs self))
  && negb (Dict.contains name (types self))
  && negb (Dict.contains name (scalars self)).

(** The name is held by no input type and no object type. *)
Definition scalar_name_free (self : GraphQLSchema) (name : string) : bool :=
  negb (Dict.contains name (inputs self))
  && negb (Dict.contains name (types self)).

(** The name is held by no query and no mutation. *)
Definition function_name_free (self : GraphQLSchema) (name : string) : bool :=
  negb (Dict.contains name (queries self))
  && negb (Dict.contains name (mutations self)).

(** The five registration operations, as one call. *)
Inductive registration : Type :=
| RegisterType (t : GraphQLType)
| RegisterInput (t : GraphQLType)
| RegisterScalar (sc : GraphQLScalar)
| RegisterQuery (f : GraphQLFunction)
| RegisterMutation (f : GraphQLFunction).

Definition run_registration (op : registration) : Method unit :=
  match op with
  | RegisterType t => add_type t
  | RegisterInput t => add_input_type t
  | RegisterScalar sc => add_scalar sc
  | RegisterQuery f => add_query f
  | RegisterMutation f => add_mutation f
  end.

(** The registries that [GraphQLSchema()] followed by registrations, failed
    or not, can produce. *)
Inductive reachable : GraphQLSchema -> Prop :=
| reachable_init : reachable GraphQLSchema_init
| reachable_step (self : GraphQLSchema) (op : registration) :
    reachable self -> reachable (snd (run_registration op self)).

(** Every entry of the dictionary is stored under its own name. *)
Definition keyed {V} (name : V -> string) (d : Dict.t V) : Prop :=
  Forall (fun kv => fst kv = name (snd kv)) d.

(** No key of [d] is a key of [d']. *)
Definition disjoint_names {V W} (d : Dict.t V) (d' : Dict.t W) : Prop :=
  forall n, Dict.contains n d = true -> Dict.contains n d' = false.

(** The shape every registry keeps: entries stored under their own names,
    no key twice in a map, no name shared between scalars, object types
    and input types, no name shared between queries and mutations. *)
Definition registry_invariant (self : GraphQLSchema) : Prop :=
  (keyed type_name (types self) /\ keyed scalar_name (scalars self)
   /\ keyed type_name (inputs self) /\ keyed function_name (queries self)
   /\ keyed function_name (mutations self))
  /\ (NoDup (Dict.keys (types self)) /\ NoDup (Dict.keys (scalars self))
      /\ NoDup (Dict.keys (inputs self)) /\ NoDup (Dict.keys (queries self))
      /\ NoDup (Dict.keys (mutations self)))
  /\ (disjoint_names (types self) (inputs self)
      /\ disjoint_names (scalars self) (types self)
      /\ disjoint_names (scalars self) (inputs self)
      /\ disjoint_names (queries self) (mutations self)).

(** The name under which a registration stores its entity. *)
Definition registration_name (op : registration) : string :=
  match op with
  | RegisterType t | RegisterInput t => type_name t
  | RegisterScalar sc => scalar_name sc
  | RegisterQuery f | RegisterMutation f => function_name f
  end.

(** The entity of the registration is what its map holds under its name. *)
Definition stored (op : registration) (self : GraphQLSchema) : Prop :=
  match op with
  | RegisterType t => Dict.get (type_name t) (types self) = Some t
  | RegisterInput t => Dict.get (type_name t) (inputs self) = Some t
  | RegisterScalar sc => Dict.get (scalar_name sc) (scalars self) = Some sc
  | RegisterQuery f => Dict.get (function_name f) (queries self) = Some f
  | RegisterMutation f => Dict.get (function_name f) (mutations self) = Some f
  end.

(** The name of the registration is free for it in the registry. *)
Definition name_free (op : registration) (self : GraphQLSchema) : bool :=
  match op with
  | RegisterType t | RegisterInput t => type_name_free self (type_name t)
  | RegisterScalar sc => scalar_name_free self (scalar_name sc)
  | RegisterQuery f | RegisterMutation f => function_name_free self (function_name f)
  end.

(** The registry after the registration's dictionary assignment. *)
Definition assigned (op : registration) (self : GraphQLSchema) : GraphQLSchema :=
  match op with
  | RegisterType t => set_types (Dict.set (type_name t) t) self
  | RegisterInput t => set_inputs (Dict.set (type_name t) t) self
  | RegisterScalar sc => set_scalars (Dict.set (scalar_name sc) sc) self
  | RegisterQuery f => set_queries (Dict.set (function_name f) f) self
  | RegisterMutation f => set_mutations (Dict.set (function_name f) f) self
  end.

(** A second registration that the first one, once made, stands in the way
    of: the two share a name space, and they are not two scalars. *)
Definition clashes (op op' : registration) : bool :=
  match op, op' with
  | (RegisterType _ | RegisterInput _),
    (RegisterType _ | RegisterInput _ | RegisterScalar _) => true
  | RegisterScalar _, (RegisterType _ | RegisterInput _) => true
  | (RegisterQuery _ | RegisterMutation _),
    (RegisterQuery _ | RegisterMutation _) => true
  | _, _ => false
  end.

(** The five maps hold the same entities, in whatever order. *)
Definition same_entities (a b : GraphQLSchema) : Prop :=
  Permutation (Dict.values (scalars a)) (Dict.values (scalars b))
  /\ Permutation (Dict.values (types a)) (Dict.values (types b))
  /\ Permutation (Dict.values (inputs a)) (Dict.values (inputs b))
  /\ Permutation (Dict.values (queries a)) (Dict.values (queries b))
  /\ Permutation (Dict.values (mutations a)) (Dict.values (mutations b)).

(** No two entities of a map bear the same name. *)
Definition distinct_names (self : GraphQLSchema) : Prop :=
  NoDup (map scalar_name (Dict.values (scalars self)))
  /\ NoDup (map type_name (Dict.values (types self)))
  /\ NoDup (map type_name (Dict.values (inputs self)))
  /\ NoDup (map function_name (Dict.values (queries self)))
  /\ NoDup (map function_name (Dict.values (mutations self))).

(** The registry holds nothing. *)
Definition is_empty (self : GraphQLSchema) : bool :=
  match types self, scalars self, inputs self, queries self, mutations self with
  | [], [], [], [], [] => true
  | _, _, _, _, _ => false
  end.

(** A registry whose only function is the query with the untyped
    parameter. *)
Definition untyped_schema : GraphQLSchema :=
  mkSchema Dict.empty Dict.empty Dict.empty
    [("broken", mkFunction "broken" (DReference (mkReference "M" false))
                  [mkField None (Some "m") None "m"] [])]
    Dict.empty.

(** A resolver invocation on a value that is not null. *)
Definition is_ResolverCall_not_None (ev : event) : Prop :=
  match ev with
  | ResolverCall _ v => is_not_None v = true
  | FuncCall _ => False
  end.

(** [sample_schema], its two queries registered in the other order. *)
Definition sample_schema_swapped : GraphQLSchema :=
  mkSchema (types sample_schema) (scalars sample_schema) (inputs sample_schema)
    [("all", mkFunction "all" (DReference (mkReference "[M!]" false)) [] []);
     ("get", get_signature)]
    Dict.empty.

(** A query with a parameter that was given no type. *)
Definition untyped_signature : GraphQLFunction :=
  mkFunction "broken" (DReference (mkReference "M" false))
    [mkField None (Some "m") None "m"] [].

(** Incoming keyword arguments with an entry no schema parameter names. *)
Definition kwargs_with_context : Dict.t PyVal :=
  [("context", PyString "request"); ("day", PyString "2020-01-31");
   ("page", PyNone)].

(* ================================================================== *)
(** * Facts about strings, [strip] and [join] *)
(* ================================================================== *)

Lemma append_assoc (a b c : string) : (a ++ b) ++ c = a ++ (b ++ c).
Proof. induction a as [|x a IH]; simpl; [reflexivity | now rewrite IH]. Qed.

Lemma append_empty_r (a : string) : a ++ "" = a.
Proof. induction a as [|x a IH]; simpl; [reflexivity | now rewrite IH]. Qed.

Lemma truthy_append_r (a b : string) : truthy b = true -> truthy (a ++ b) = true.
Proof. destruct a; simpl; auto. Qed.

Lemma truthy_length (s : string) :
  negb (String.length s =? 0)%nat = truthy s.
Proof. destruct s; reflexivity. Qed.

Lemma lstrip_keeps (c : ascii) (s : string) :
  isspace c = false -> lstrip (String c s) = String c s.
Proof. intros H; simpl; now rewrite H. Qed.

Lemma lstrip_drops (c : ascii) (s : string) :
  isspace c = true -> lstrip (String c s) = lstrip s.
Proof. intros H; simpl; now rewrite H. Qed.

Lemma rstrip_append (s t : string) :
  truthy (rstrip t) = true -> rstrip (s ++ t) = s ++ rstrip t.
Proof.
  intros Ht. induction s as [|c s IH]; simpl; [reflexivity|].
  rewrite IH.
  destruct (s ++ rstrip t) eqn:E; [|reflexivity].
  assert (truthy (s ++ rstrip t) = true) as Hne by now apply truthy_append_r.
  rewrite E in Hne. discriminate.
Qed.

Lemma join_cons2 (sep x y : string) (l : list string) :
  join sep (x :: y :: l) = x ++ sep ++ join sep (y :: l).
Proof. reflexivity. Qed.

Lemma join_single (sep x : string) : join sep [x] = x.
Proof. reflexivity. Qed.

(** What [.strip()] leaves of the f-string of [GraphQLType.render]. *)
Lemma strip_type_template (as_input : bool) (name body : string) :
  strip (type_template (if as_input then "input" else "type") name body)
  = (if as_input then "input" else "type") ++ " " ++ name ++ " {" ++ NL
    ++ "    " ++ body ++ NL ++ "}".
Proof.
  unfold strip, type_template.
  set (tail := "}" ++ NL ++ "        ").
  assert (Htail : rstrip tail = "}") by reflexivity.
  assert (Hres : forall decl,
             rstrip (decl ++ " " ++ name ++ " {" ++ NL ++ "    " ++ body ++ NL ++ tail)
             = decl ++ " " ++ name ++ " {" ++ NL ++ "    " ++ body ++ NL ++ "}").
  { intros decl.
    repeat (rewrite rstrip_append;
            [|repeat (first [ apply truthy_append_r | rewrite rstrip_append ]);
              rewrite ?Htail; reflexivity]).
    now rewrite Htail. }
  destruct as_input.
  - change (NL ++ "input" ++ " " ++ name ++ " {" ++ NL ++ "    " ++ body ++ NL ++ tail)
      with (String (ascii_of_nat 10)
              (String "i" ("nput" ++ " " ++ name ++ " {" ++ NL ++ "    " ++ body ++ NL ++ tail))).
    rewrite lstrip_drops by reflexivity.
    rewrite lstrip_keeps by reflexivity.
    exact (Hres "input").
  - change (NL ++ "type" ++ " " ++ name ++ " {" ++ NL ++ "    " ++ body ++ NL ++ tail)
      with (String (ascii_of_nat 10)
              (String "t" ("ype" ++ " " ++ name ++ " {" ++ NL ++ "    " ++ body ++ NL ++ tail))).
    rewrite lstrip_drops by reflexivity.
    rewrite lstrip_keeps by reflexivity.
    exact (Hres "type").
Qed.

(** What [.strip()] leaves of the f-string of [sort_and_write_functions]. *)
Lemma strip_functions_template (as_mutation : bool) (queries_str : string) :
  strip (functions_template (if as_mutation then "Mutation" else "Query") queries_str)
  = "type " ++ (if as_mutation then "Mutation" else "Query") ++ " {" ++ NL
    ++ "    " ++ queries_str ++ NL ++ "}".
Proof.
  unfold strip, functions_template.
  change (NL ++ "type " ++ (if as_mutation then "Mutation" else "Query") ++ " {" ++ NL
          ++ "    " ++ queries_str ++ NL ++ "}")
    with (String (ascii_of_nat 10)
            (String "t" ("ype " ++ (if as_mutation then "Mutation" else "Query") ++ " {" ++ NL
          ++ "    " ++ queries_str ++ NL ++ "}"))).
  rewrite lstrip_drops by reflexivity.
  rewrite lstrip_keeps by reflexivity.
  change (String "t" ("ype " ++ (if as_mutation then "Mutation" else "Query") ++ " {" ++ NL
          ++ "    " ++ queries_str ++ NL ++ "}"))
    with ("type " ++ (if as_mutation then "Mutation" else "Query") ++ " {" ++ NL
          ++ "    " ++ queries_str ++ NL ++ "}").
  repeat (rewrite rstrip_append;
          [|repeat (first [ apply truthy_append_r | rewrite rstrip_append ]);
            reflexivity]).
  reflexivity.
Qed.

(* ================================================================== *)
(** * Facts about the order on [str] and about [sorted] *)
(* ================================================================== *)

Lemma ascii_compare_refl (a : ascii) : Ascii.compare a a = Eq.
Proof. unfold Ascii.compare. apply N.compare_refl. Qed.

Lemma ascii_compare_lt_trans (a b c : ascii) :
  Ascii.compare a b = Lt -> Ascii.compare b c = Lt -> Ascii.compare a c = Lt.
Proof.
  unfold Ascii.compare. rewrite !N.compare_lt_iff. lia.
Qed.

Lemma string_compare_refl (s : string) : String.compare s s = Eq.
Proof.
  induction s as [|c s IH]; simpl; [reflexivity|].
  now rewrite ascii_compare_refl.
Qed.

Lemma string_compare_lt_trans (a b c : string) :
  String.compare a b = Lt -> String.compare b c = Lt -> String.compare a c = Lt.
Proof.
  revert b c. induction a as [|x a IH]; intros [|y b] [|z c]; simpl;
    try discriminate; try reflexivity.
  destruct (Ascii.compare x y) eqn:Exy; try discriminate;
    destruct (Ascii.compare y z) eqn:Eyz; try discriminate; intros Hab Hbc.
  - apply Ascii.compare_eq_iff in Exy, Eyz. subst.
    rewrite ascii_compare_refl. eauto.
  - apply Ascii.compare_eq_iff in Exy. subst. now rewrite Eyz.
  - apply Ascii.compare_eq_iff in Eyz. subst. now rewrite Exy.
  - now rewrite (ascii_compare_lt_trans _ _ _ Exy Eyz).
Qed.

Lemma le_cases (a b : string) :
  PyStr.le a b = true <-> String.compare a b = Lt \/ a = b.
Proof.
  unfold PyStr.le, String.leb. split.
  - destruct (String.compare a b) eqn:E; try discriminate; intros _.
    + right. now apply String.compare_eq_iff.
    + now left.
  - intros [H | ->].
    + now rewrite H.
    + now rewrite string_compare_refl.
Qed.

Lemma le_trans (a b c : string) :
  PyStr.le a b = true -> PyStr.le b c = true -> PyStr.le a c = true.
Proof.
  rewrite !le_cases. intros [Hab | ->] [Hbc | ->]; auto.
  left. eapply string_compare_lt_trans; eauto.
Qed.

Lemma le_total (a b : string) : PyStr.le a b = false -> PyStr.le b a = true.
Proof.
  intros H. destruct (String.leb_total a b) as [H1 | H1]; unfold PyStr.le in *;
    congruence.
Qed.

Section SortedFacts.

Variable A : Type.
Variable key : A -> string.

Lemma key_le_trans : Transitive (key_le key).
Proof. intros x y z. unfold key_le. apply le_trans. Qed.

Lemma insert_sorted_perm (x : A) (l : list A) :
  Permutation (insert_sorted key x l) (x :: l).
Proof.
  induction l as [|y l IH]; simpl; [reflexivity|].
  destruct (PyStr.le (key x) (key y)); [reflexivity|].
  rewrite IH. apply perm_swap.
Qed.

Lemma sorted_perm (l : list A) : Permutation (sorted key l) l.
Proof.
  induction l as [|x l IH]; simpl; [reflexivity|].
  rewrite insert_sorted_perm. now constructor.
Qed.

Lemma insert_sorted_HdRel (a x : A) (l : list A) :
  key_le key a x -> HdRel (key_le key) a l ->
  HdRel (key_le key) a (insert_sorted key x l).
Proof.
  intros Hax Hl. destruct l as [|y l]; simpl; [now constructor|].
  destruct (PyStr.le (key x) (key y)); constructor; auto.
  now inversion Hl.
Qed.

Lemma insert_sorted_Sorted (x : A) (l : list A) :
  Sorted (key_le key) l -> Sorted (key_le key) (insert_sorted key x l).
Proof.
  induction 1 as [|y l Hs IH Hd]; simpl; [repeat constructor|].
  destruct (PyStr.le (key x) (key y)) eqn:E.
  - repeat constructor; auto.
  - constructor; [exact IH|].
    apply insert_sorted_HdRel; [|exact Hd].
    now apply le_total.
Qed.

Lemma sorted_Sorted (l : list A) : Sorted (key_le key) (sorted key l).
Proof.
  induction l as [|x l IH]; simpl; [constructor|].
  now apply insert_sorted_Sorted.
Qed.

Lemma sorted_StronglySorted (l : list A) :
  StronglySorted (key_le key) (sorted key l).
Proof.
  apply Sorted_StronglySorted; [exact key_le_trans | apply sorted_Sorted].
Qed.

Lemma sorted_length (l : list A) : List.length (sorted key l) = List.length l.
Proof. apply Permutation_length, sorted_perm. Qed.

Lemma sorted_nil_iff (l : list A) : sorted key l = [] <-> l = [].
Proof.
  split; intros H.
  - apply length_zero_iff_nil. rewrite <- sorted_length, H. reflexivity.
  - now subst.
Qed.

End SortedFacts.

Lemma sorted_map {A B} (f : A -> B) (keyA : A -> string) (keyB : B -> string)
  (l : list A) :
  (forall x, keyB (f x) = keyA x) ->
  sorted keyB (map f l) = map f (sorted keyA l).
Proof.
  intros Hk. induction l as [|x l IH]; simpl; [reflexivity|].
  rewrite IH. generalize (sorted keyA l) as m.
  induction m as [|y m IHm]; simpl; [reflexivity|].
  rewrite !Hk. destruct (PyStr.le (keyA x) (keyA y)); simpl; [reflexivity|].
  now rewrite IHm.
Qed.

(* ================================================================== *)
(** * Rendering of type nodes *)
(* ================================================================== *)

Lemma GraphQLType_render_eq (name : string) (attrs : list GraphQLTypeAttribute)
  (as_input : bool) :
  GraphQLType_render (mkType name attrs as_input)
  = decl_of as_input ++ " " ++ name ++ " {" ++ NL
    ++ "    " ++ join (NL ++ "    ") (map GraphQLTypeAttribute_render attrs)
    ++ NL ++ "}".
Proof.
  unfold decl_of. rewrite <- strip_type_template.
  reflexivity.
Qed.

(** One line per attribute, each behind four spaces. *)
Lemma indented_lines {A} (f : A -> string) (a : A) (rest : list A) (close : string) :
  "    " ++ join (NL ++ "    ") (map f (a :: rest)) ++ NL ++ close
  = join NL (app (map (fun x => "    " ++ f x) (a :: rest)) [close]).
Proof.
  revert a. induction rest as [|b rest IH]; intros a.
  - cbn [map app]. rewrite join_single, join_cons2, join_single.
    now rewrite append_assoc.
  - cbn [map app]. rewrite !join_cons2.
    specialize (IH b). cbn [map app] in IH. rewrite <- IH.
    now rewrite !append_assoc.
Qed.

Lemma GraphQLType_render_truthy (t : GraphQLType) :
  truthy (GraphQLType_render t) = true.
Proof.
  destruct t as [name attrs as_input]. rewrite GraphQLType_render_eq.
  destruct as_input; reflexivity.
Qed.

Lemma GT_render_truthy (x : GT) : truthy (GT_render x) = true.
Proof. destruct x; [apply GraphQLType_render_truthy | reflexivity]. Qed.

(** C7. An object-kind type named M with attributes [t_int] (reference to
    Int, non-nullable) and [t_opt_str] (reference to String, nullable)
    renders exactly as the four lines "type M {", "    t_int: Int!",
    "    t_opt_str: String", "}".  In general the rendered text of a type
    with at least one attribute is the header line, one line per attribute
    made of four spaces and the attribute's rendering, and the closing
    brace; an attribute that holds a reference renders as its name, a colon
    and a space, and the referenced name followed by '!' exactly when the
    reference is not nullable. *)
Theorem GraphQLType_render_format :
  GraphQLType_render
    (mkType "M" [mkAttribute "t_int" (DReference (mkReference "Int" false));
                 mkAttribute "t_opt_str" (DReference (mkReference "String" true))]
       false)
  = "type M {" ++ NL ++ "    t_int: Int!" ++ NL ++ "    t_opt_str: String" ++ NL ++ "}"
  /\ (forall name a rest as_input,
        GraphQLType_render (mkType name (a :: rest) as_input)
        = join NL (((if as_input then "input" else "type") ++ " " ++ name ++ " {")
                   :: app (map (fun x => "    " ++ GraphQLTypeAttribute_render x)
                             (a :: rest))
                        ["}"]))
  /\ (forall name target,
        GraphQLTypeAttribute_render
          (mkAttribute name (DReference (mkReference target false)))
        = name ++ ": " ++ target ++ "!"
        /\ GraphQLTypeAttribute_render
             (mkAttribute name (DReference (mkReference target true)))
           = name ++ ": " ++ target).
Proof.
  split; [reflexivity|]. split.
  - intros name a rest as_input. rewrite GraphQLType_render_eq.
    rewrite indented_lines. unfold decl_of.
    cbn [map app]. rewrite join_cons2. now rewrite !append_assoc.
  - intros name target. split; cbn.
    + reflexivity.
    + now rewrite append_empty_r.
Qed.

(* ================================================================== *)
(** * Rendering of function nodes *)
(* ================================================================== *)

Lemma join_truthy (sep x : string) (l : list string) :
  truthy x = true -> truthy (join sep (x :: l)) = true.
Proof.
  intros Hx. destruct l as [|y l]; [exact Hx|].
  rewrite join_cons2. destruct x; [discriminate | reflexivity].
Qed.

Lemma field_text_truthy (p : GraphQLFunctionField) : truthy (field_text p) = true.
Proof. unfold field_text. now apply truthy_append_r. Qed.

Lemma comprehension_fields (ps : list GraphQLFunctionField) :
  forallb has_type ps = true ->
  comprehension GraphQLFunctionField_render ps = Ok (map field_text ps).
Proof.
  induction ps as [|p ps IH]; simpl; [reflexivity|].
  intros H. apply andb_prop in H as [Hp Hps]. rewrite (IH Hps).
  unfold GraphQLFunctionField_render, field_text, has_type in *.
  destruct (field_type p); [reflexivity | discriminate].
Qed.

Lemma GraphQLFunction_render_eq (f : GraphQLFunction) :
  well_typed f = true ->
  GraphQLFunction_render f
  = Ok (function_name f
        ++ match parameters f with
           | [] => ""
           | _ :: _ => "(" ++ join ", " (map field_text (parameters f)) ++ ")"
           end
        ++ ": " ++ GraphQLDataType_render (return_type f)).
Proof.
  intros Hwt. unfold GraphQLFunction_render.
  rewrite (comprehension_fields _ Hwt).
  destruct (parameters f) as [|p ps]; [reflexivity|].
  cbn [map]. now rewrite join_truthy by apply field_text_truthy.
Qed.

(** C8. The rendered signature of a function node whose parameters all
    carry a type is the function name, then, only when there is at least
    one schema parameter, the parenthesised list of the parameters in
    declaration order, separated by a comma and a space, each as
    [name: Type], then a colon, a space and the rendered return type; with
    no schema parameter there are no parentheses.  A parameter whose type
    is a reference shows the referenced name followed by '!' exactly when
    the reference is not nullable. *)
Theorem GraphQLFunction_render_signature (f : GraphQLFunction) :
  well_typed f = true ->
  GraphQLFunction_render f
  = Ok (function_name f
        ++ match parameters f with
           | [] => ""
           | _ :: _ => "(" ++ join ", " (map field_text (parameters f)) ++ ")"
           end
        ++ ": " ++ GraphQLDataType_render (return_type f))
  /\ (forall resolver name target is_nullable python,
        field_text (mkField resolver (Some name)
                      (Some (DReference (mkReference target is_nullable))) python)
        = name ++ ": " ++ target ++ (if is_nullable then "" else "!")).
Proof.
  intros Hwt. split; [now apply GraphQLFunction_render_eq | reflexivity].
Qed.

Lemma GraphQLFunction_render_signature_witness :
  well_typed get_signature = true
  /\ GraphQLFunction_render get_signature = Ok "get(m: MInput!, limit: Int): M!".
Proof.
  split; [reflexivity|].
  destruct (GraphQLFunction_render_signature get_signature) as [H _];
    [reflexivity | exact H].
Defined.

(* ================================================================== *)
(** * Registration in the schema registry *)
(* ================================================================== *)

Local Ltac run_method :=
  unfold add_type, add_scalar, add_input_type, add_query, add_mutation,
    check_type_name_conflict, check_function_name_conflict,
    bind, read, write, raise, ret; cbn [fst snd].

(** The check either passes or raises, and never touches the registry. *)
Lemma check_type_name_conflict_cases (x : GT) (self : GraphQLSchema) :
  check_type_name_conflict x self
  = if Dict.contains (GT_name x) (inputs self)
    then (Raise (name_conflict (GT_name x) "as an input"), self)
    else if Dict.contains (GT_name x) (types self)
    then (Raise (name_conflict (GT_name x) "as an type"), self)
    else if Dict.contains (GT_name x) (scalars self) && negb (is_GraphQLScalar x)
    then (Raise (name_conflict (GT_name x) "as an scalar"), self)
    else (Ok tt, self).
Proof.
  run_method.
  destruct (Dict.contains (GT_name x) (inputs self)); [reflexivity|].
  destruct (Dict.contains (GT_name x) (types self)); [reflexivity|].
  destruct (Dict.contains (GT_name x) (scalars self) && negb (is_GraphQLScalar x));
    reflexivity.
Qed.

Lemma check_function_name_conflict_cases (f : GraphQLFunction) (self : GraphQLSchema) :
  check_function_name_conflict f self
  = if Dict.contains (function_name f) (queries self)
    then (Raise (name_conflict (function_name f) "for a query"), self)
    else if Dict.contains (function_name f) (mutations self)
    then (Raise (name_conflict (function_name f) "for a mutation"), self)
    else (Ok tt, self).
Proof.
  run_method.
  destruct (Dict.contains (function_name f) (queries self)); [reflexivity|].
  destruct (Dict.contains (function_name f) (mutations self)); reflexivity.
Qed.

Lemma checked_write {A} (check : Method A) (f : GraphQLSchema -> GraphQLSchema)
  (self : GraphQLSchema) :
  snd (check self) = self ->
  (check ;; write f) self
  = match fst (check self) with
    | Ok _ => (Ok tt, f self)
    | Raise e => (Raise e, self)
    end.
Proof.
  unfold bind, write. destruct (check self) as [[a | e] s']; cbn; now intros ->.
Qed.

Lemma check_type_name_conflict_state (x : GT) (self : GraphQLSchema) :
  snd (check_type_name_conflict x self) = self.
Proof.
  rewrite check_type_name_conflict_cases.
  repeat match goal with |- context [if ?b then _ else _] => destruct b end;
    reflexivity.
Qed.

Lemma check_function_name_conflict_state (f : GraphQLFunction) (self : GraphQLSchema) :
  snd (check_function_name_conflict f self) = self.
Proof.
  rewrite check_function_name_conflict_cases.
  repeat match goal with |- context [if ?b then _ else _] => destruct b end;
    reflexivity.
Qed.

(** A registration that raises leaves the registry as it found it. *)
Lemma checked_write_raises {A} (check : Method A) (f : GraphQLSchema -> GraphQLSchema)
  (self self' : GraphQLSchema) (e : exn) :
  snd (check self) = self ->
  (check ;; write f) self = (Raise e, self') -> self' = self.
Proof.
  intros Hs. rewrite checked_write by exact Hs.
  destruct (fst (check self)); intros H; inversion H; reflexivity.
Qed.

(** C2, as the code has it.  Registering an object type or an input type
    fails with the name-conflict error, leaving the registry unchanged,
    whenever its name is held by an input type, an object type or a scalar;
    registering a scalar fails in the same way whenever its name is held by
    an input type or an object type.  A scalar whose name is held by a
    scalar only is accepted: it takes the place of the entry of that
    name. *)
Theorem registration_name_conflict (self : GraphQLSchema) :
  (forall t : GraphQLType,
      Dict.contains (type_name t) (inputs self)
      || Dict.contains (type_name t) (types self)
      || Dict.contains (type_name t) (scalars self) = true ->
      exists kind,
        add_type t self = (Raise (name_conflict (type_name t) kind), self)
        /\ add_input_type t self = (Raise (name_conflict (type_name t) kind), self))
  /\ (forall sc : GraphQLScalar,
        Dict.contains (scalar_name sc) (inputs self)
        || Dict.contains (scalar_name sc) (types self) = true ->
        exists kind,
          add_scalar sc self = (Raise (name_conflict (scalar_name sc) kind), self))
  /\ (forall sc : GraphQLScalar,
        Dict.contains (scalar_name sc) (inputs self) = false ->
        Dict.contains (scalar_name sc) (types self) = false ->
        add_scalar sc self
        = (Ok tt, set_scalars (Dict.set (scalar_name sc) sc) self)).
Proof.
  split; [|split].
  - intros t H. unfold add_type, add_input_type.
    rewrite !checked_write by apply check_type_name_conflict_state.
    rewrite check_type_name_conflict_cases. cbn [GT_name is_GraphQLScalar negb].
    rewrite andb_true_r.
    destruct (Dict.contains (type_name t) (inputs self)); [eexists; split; reflexivity|].
    destruct (Dict.contains (type_name t) (types self)); [eexists; split; reflexivity|].
    destruct (Dict.contains (type_name t) (scalars self)); [eexists; split; reflexivity|].
    discriminate.
  - intros sc H. unfold add_scalar.
    rewrite checked_write by apply check_type_name_conflict_state.
    rewrite check_type_name_conflict_cases. cbn [GT_name is_GraphQLScalar negb].
    destruct (Dict.contains (scalar_name sc) (inputs self)); [eexists; reflexivity|].
    destruct (Dict.contains (scalar_name sc) (types self)); [eexists; reflexivity|].
    discriminate.
  - intros sc Hi Ht. unfold add_scalar.
    rewrite checked_write by apply check_type_name_conflict_state.
    rewrite check_type_name_conflict_cases. cbn [GT_name is_GraphQLScalar negb].
    now rewrite Hi, Ht, andb_false_r.
Qed.

Lemma registration_name_conflict_witness :
  (exists kind,
      add_type date_type date_schema = (Raise (name_conflict "Date" kind), date_schema)
      /\ add_input_type date_type date_schema
         = (Raise (name_conflict "Date" kind), date_schema))
  /\ add_scalar GraphQLDate date_schema = (Ok tt, date_schema).
Proof.
  destruct (registration_name_conflict date_schema) as (Ht & _ & Hs).
  split.
  - apply (Ht date_type). reflexivity.
  - apply (Hs GraphQLDate); reflexivity.
Defined.

(** C2, as the claim has it, fails: the name [Date] is held by a scalar of
    the registry, and registering a scalar of that name does not fail. *)
Lemma add_scalar_over_scalar :
  Dict.contains (scalar_name GraphQLDate) (scalars date_schema) = true
  /\ add_scalar GraphQLDate date_schema = (Ok tt, date_schema)
  /\ ~ (forall (self : GraphQLSchema) (sc : GraphQLScalar),
          Dict.contains (scalar_name sc) (inputs self)
          || Dict.contains (scalar_name sc) (types self)
          || Dict.contains (scalar_name sc) (scalars self) = true ->
          exists e self', add_scalar sc self = (Raise e, self')).
Proof.
  split; [reflexivity|]. split; [reflexivity|].
  intros H. destruct (H date_schema GraphQLDate) as (e & self' & Hr);
    [reflexivity | discriminate Hr].
Qed.

(** C4. Registering a function as a query, or as a mutation, fails with the
    name-conflict error, leaving the registry unchanged, whenever its name
    is already held by a query or by a mutation. *)
Theorem function_name_conflict (self : GraphQLSchema) (f : GraphQLFunction) :
  Dict.contains (function_name f) (queries self) = true
  \/ Dict.contains (function_name f) (mutations self) = true ->
  exists kind,
    add_query f self = (Raise (name_conflict (function_name f) kind), self)
    /\ add_mutation f self = (Raise (name_conflict (function_name f) kind), self).
Proof.
  intros H. unfold add_query, add_mutation.
  rewrite !checked_write by apply check_function_name_conflict_state.
  rewrite check_function_name_conflict_cases.
  destruct (Dict.contains (function_name f) (queries self));
    [eexists; split; reflexivity|].
  destruct (Dict.contains (function_name f) (mutations self));
    [eexists; split; reflexivity|].
  destruct H; discriminate.
Qed.

Lemma function_name_conflict_witness :
  exists kind,
    add_query get_signature get_schema = (Raise (name_conflict "get" kind), get_schema)
    /\ add_mutation get_signature get_schema
       = (Raise (name_conflict "get" kind), get_schema).
Proof.
  apply (function_name_conflict get_schema get_signature). left. reflexivity.
Defined.

(** C6. Each of the five registration operations is atomic with respect to
    failure: when it raises, the registry it leaves behind, all five maps
    of it, is the registry it was called on. *)
Theorem registration_atomic (self self' : GraphQLSchema) (e : exn) :
  (forall t, add_type t self = (Raise e, self') -> self' = self)
  /\ (forall t, add_input_type t self = (Raise e, self') -> self' = self)
  /\ (forall sc, add_scalar sc self = (Raise e, self') -> self' = self)
  /\ (forall f, add_query f self = (Raise e, self') -> self' = self)
  /\ (forall f, add_mutation f self = (Raise e, self') -> self' = self).
Proof.
  repeat split; intros x;
    first [ apply checked_write_raises, check_type_name_conflict_state
          | apply checked_write_raises, check_function_name_conflict_state ].
Qed.

Lemma registration_atomic_witness :
  add_type date_type date_schema
  = (Raise (name_conflict "Date" "as an scalar"), date_schema)
  /\ date_schema = date_schema.
Proof.
  split; [reflexivity|].
  destruct (registration_atomic date_schema date_schema
              (name_conflict "Date" "as an scalar")) as (H & _).
  apply (H date_type). reflexivity.
Defined.

(* ================================================================== *)
(** * Rendering of the whole registry *)
(* ================================================================== *)

Lemma GraphQLFunction_render_signature_eq (f : GraphQLFunction) :
  well_typed f = true -> GraphQLFunction_render f = Ok (signature f).
Proof. apply GraphQLFunction_render_eq. Qed.

Lemma comprehension_functions (fs : list GraphQLFunction) :
  forallb well_typed fs = true ->
  comprehension GraphQLFunction_render fs = Ok (map signature fs).
Proof.
  induction fs as [|f fs IH]; simpl; [reflexivity|].
  intros H. apply andb_prop in H as [Hf Hfs].
  now rewrite (GraphQLFunction_render_signature_eq _ Hf), (IH Hfs).
Qed.

Lemma forallb_sorted {A} (key : A -> string) (p : A -> bool) (l : list A) :
  forallb p l = true -> forallb p (sorted key l) = true.
Proof.
  rewrite !forallb_forall. intros H x Hx. apply H.
  eapply Permutation_in; [apply sorted_perm | exact Hx].
Qed.

Lemma any_cons {A} (x : A) (l : list A) : any (x :: l) = true.
Proof. reflexivity. Qed.

Lemma sort_and_write_functions_eq (fs : list GraphQLFunction) (as_mutation : bool) :
  forallb well_typed fs = true ->
  sort_and_write_functions fs as_mutation
  = Ok (join "" (block_text (if as_mutation then "Mutation" else "Query")
                   (map signature (sorted function_name fs)))).
Proof.
  intros Hwt. unfold sort_and_write_functions.
  destruct fs as [|f fs]; [reflexivity|].
  rewrite any_cons. cbn [negb].
  rewrite comprehension_functions by now apply forallb_sorted.
  rewrite strip_functions_template.
  destruct (sorted function_name (f :: fs)) as [|g gs] eqn:E.
  - apply sorted_nil_iff in E. discriminate.
  - reflexivity.
Qed.

Lemma sort_and_write_scalars (separator : string) (l : list GraphQLScalar) :
  sort_and_write separator (map GTScalar l)
  = join separator (map GraphQLScalar_render (sorted scalar_name l)).
Proof.
  unfold sort_and_write.
  rewrite (sorted_map GTScalar scalar_name GT_name) by reflexivity.
  now rewrite map_map.
Qed.

Lemma sort_and_write_types (separator : string) (l : list GraphQLType) :
  sort_and_write separator (map GTType l)
  = join separator (map GraphQLType_render (sorted type_name l)).
Proof.
  unfold sort_and_write.
  rewrite (sorted_map GTType type_name GT_name) by reflexivity.
  now rewrite map_map.
Qed.

(** [filter] keeps a section exactly when it has some text. *)
Lemma filter_section (rendered rest : list string) :
  Forall (fun s => truthy s = true) rendered ->
  filter (fun s => negb (String.length s =? 0)%nat)
    (join (NL ++ NL) rendered :: rest)
  = app (section_text rendered)
      (filter (fun s => negb (String.length s =? 0)%nat) rest).
Proof.
  intros H. destruct rendered as [|x l]; [reflexivity|].
  cbn [filter section_text app]. rewrite truthy_length.
  inversion H; subst. now rewrite join_truthy.
Qed.

Lemma filter_block (decl : string) (signatures rest : list string) :
  filter (fun s => negb (String.length s =? 0)%nat)
    (join "" (block_text decl signatures) :: rest)
  = app (block_text decl signatures)
      (filter (fun s => negb (String.length s =? 0)%nat) rest).
Proof.
  destruct signatures as [|x l]; [reflexivity|].
  cbn [filter block_text app join String.concat]. now rewrite truthy_length.
Qed.

Lemma Forall_truthy_map {A} (f : A -> string) (l : list A) :
  (forall x, truthy (f x) = true) ->
  Forall (fun s => truthy s = true) (map f l).
Proof. intros H. induction l; constructor; auto. Qed.

Lemma section_text_truthy (rendered : list string) :
  Forall (fun s => truthy s = true) rendered ->
  Forall (fun s => truthy s = true) (section_text rendered).
Proof.
  intros H. destruct rendered as [|x l]; constructor; [|constructor].
  inversion H; subst. now apply join_truthy.
Qed.

Lemma block_text_truthy (decl : string) (signatures : list string) :
  Forall (fun s => truthy s = true) (block_text decl signatures).
Proof. destruct signatures; repeat constructor. Qed.

(** C3. For a registry whose functions have typed parameters, [render]
    returns the text made of these sections, in this order: the scalars
    sorted by name, the object types sorted by name, the input types sorted
    by name, one [Query] block with the signatures of all queries sorted by
    name when there is a query, one [Mutation] block with the signatures of
    all mutations sorted by name when there is a mutation.  The sections
    are joined by one blank line; a section without entity is absent, and
    every section that is present has some text, so that no blank line is
    stray and no block is empty. *)
Theorem render_sections (self : GraphQLSchema) :
  functions_well_typed self = true ->
  let ss := sorted scalar_name (Dict.values (scalars self)) in
  let ts := sorted type_name (Dict.values (types self)) in
  let ins := sorted type_name (Dict.values (inputs self)) in
  let qs := sorted function_name (Dict.values (queries self)) in
  let ms := sorted function_name (Dict.values (mutations self)) in
  let sections :=
    app (section_text (map GraphQLScalar_render ss))
      (app (section_text (map GraphQLType_render ts))
         (app (section_text (map GraphQLType_render ins))
            (app (block_text "Query" (map signature qs))
               (block_text "Mutation" (map signature ms))))) in
  render self = Ok (join (NL ++ NL) sections)
  /\ Forall (fun s => truthy s = true) sections
  /\ (Permutation ss (Dict.values (scalars self))
      /\ StronglySorted (key_le scalar_name) ss)
  /\ (Permutation ts (Dict.values (types self))
      /\ StronglySorted (key_le type_name) ts)
  /\ (Permutation ins (Dict.values (inputs self))
      /\ StronglySorted (key_le type_name) ins)
  /\ (Permutation qs (Dict.values (queries self))
      /\ StronglySorted (key_le function_name) qs)
  /\ (Permutation ms (Dict.values (mutations self))
      /\ StronglySorted (key_le function_name) ms).
Proof.
  intros Hwt ss ts ins qs ms sections.
  unfold functions_well_typed in Hwt. apply andb_prop in Hwt as [Hq Hm].
  assert (Hsc : Forall (fun s => truthy s = true) (map GraphQLScalar_render ss))
    by (apply Forall_truthy_map; reflexivity).
  assert (Hts : Forall (fun s => truthy s = true) (map GraphQLType_render ts))
    by (apply Forall_truthy_map, GraphQLType_render_truthy).
  assert (His : Forall (fun s => truthy s = true) (map GraphQLType_render ins))
    by (apply Forall_truthy_map, GraphQLType_render_truthy).
  split; [|split].
  - unfold render.
    rewrite (sort_and_write_functions_eq _ false Hq).
    rewrite (sort_and_write_functions_eq _ true Hm).
    rewrite sort_and_write_scalars, !sort_and_write_types.
    rewrite !filter_section by assumption.
    rewrite !filter_block. cbn [filter]. rewrite app_nil_r. reflexivity.
  - unfold sections.
    repeat (apply Forall_app; split);
      auto using section_text_truthy, block_text_truthy.
  - repeat split; first [apply sorted_perm | apply sorted_StronglySorted].
Qed.

Lemma render_sections_witness :
  functions_well_typed sample_schema = true
  /\ render sample_schema
     = Ok ("scalar Date" ++ NL ++ NL
           ++ "type M {" ++ NL ++ "    t_int: Int!" ++ NL ++ "}" ++ NL ++ NL
           ++ "input MInput {" ++ NL ++ "    t_int: Int!" ++ NL ++ "}" ++ NL ++ NL
           ++ "type Query {" ++ NL
           ++ "    all: [M!]!" ++ NL
           ++ TAB ++ "get(m: MInput!, limit: Int): M!" ++ NL ++ "}").
Proof.
  split; [reflexivity|].
  destruct (render_sections sample_schema) as [H _]; [reflexivity | exact H].
Defined.

Lemma join_as_prefixes (sep x : string) (l : list string) :
  join sep (x :: l) = x ++ String.concat "" (map (fun y => sep ++ y) l).
Proof.
  revert x. induction l as [|y l IH]; intros x.
  - cbn. now rewrite append_empty_r.
  - rewrite join_cons2, IH. cbn [map]. f_equal.
    destruct l as [|z l]; cbn [map String.concat].
    + now rewrite append_empty_r.
    + cbn [append]. now rewrite !append_assoc.
Qed.

(** C9. When the queries map (the mutations map) of a registry whose
    functions have typed parameters holds two functions or more, the
    rendered [Query] ([Mutation]) block puts four spaces in front of the
    first signature and a line break followed by one tab character in front
    of every later signature. *)
Theorem block_indentation (self : GraphQLSchema) (as_mutation : bool) :
  let functions :=
    Dict.values (if as_mutation then mutations self else queries self) in
  forallb well_typed functions = true ->
  2 <= List.length functions ->
  exists f1 f2 rest,
    sorted function_name functions = f1 :: f2 :: rest
    /\ sort_and_write_functions functions as_mutation
       = Ok ("type " ++ (if as_mutation then "Mutation" else "Query") ++ " {" ++ NL
             ++ "    " ++ signature f1
             ++ String.concat ""
                  (map (fun f => NL ++ TAB ++ signature f) (f2 :: rest))
             ++ NL ++ "}").
Proof.
  intros functions Hwt Hlen.
  rewrite (sort_and_write_functions_eq _ _ Hwt).
  pose proof (sorted_length function_name functions) as Hl.
  destruct (sorted function_name functions) as [|f1 [|f2 rest]];
    cbn [List.length] in Hl; try lia.
  exists f1, f2, rest. split; [reflexivity|].
  change (map signature (f1 :: f2 :: rest))
    with (signature f1 :: map signature (f2 :: rest)).
  cbn [block_text]. rewrite join_single, join_as_prefixes, map_map.
  now rewrite !append_assoc.
Qed.

Lemma block_indentation_witness :
  2 <= List.length (Dict.values (queries sample_schema))
  /\ sort_and_write_functions (Dict.values (queries sample_schema)) false
     = Ok ("type Query {" ++ NL
           ++ "    all: [M!]!" ++ NL
           ++ TAB ++ "get(m: MInput!, limit: Int): M!" ++ NL ++ "}").
Proof.
  split; [cbn; lia|].
  destruct (block_indentation sample_schema false) as (f1 & f2 & rest & Hs & Hr);
    [reflexivity | cbn; lia |].
  cbv in Hs. inversion Hs; subst. exact Hr.
Defined.

(* ================================================================== *)
(** * The call-time wrapper *)
(* ================================================================== *)

(** One turn of the loop of [_decorator]. *)
Lemma for_parameters_cons (p : GraphQLFunctionField)
  (ps : list GraphQLFunctionField) (kwargs acc : Dict.t PyVal) (trace : list event) :
  for_parameters (p :: ps) kwargs acc trace
  = if negb (truthy (python_name p) && optional_truthy (field_name p))
    then (Raise AssertionError, trace)
    else
      let name := format_optional (field_name p) in
      match Dict.get name kwargs with
      | None => (Raise (KeyError name), trace)
      | Some v =>
          if is_not_None v then
            match field_resolver p with
            | Some r =>
                match r v with
                | Ok v' => for_parameters ps kwargs (Dict.set (python_name p) v' acc)
                             (trace ++ [ResolverCall name v])%list
                | Raise e => (Raise e, (trace ++ [ResolverCall name v])%list)
                end
            | None => for_parameters ps kwargs (Dict.set (python_name p) v acc) trace
            end
          else for_parameters ps kwargs (Dict.set (python_name p) PyNone acc) trace
      end.
Proof.
  cbn [for_parameters].
  unfold bind, assert, subscript, InjectedFunctionParameter_resolve, invoke, ret, raise.
  destruct (truthy (python_name p)); [|reflexivity].
  destruct (optional_truthy (field_name p)); [|reflexivity].
  cbn [andb negb].
  destruct (Dict.get (format_optional (field_name p)) kwargs) as [v|]; [|reflexivity].
  destruct (is_not_None v); [|reflexivity].
  destruct (field_resolver p) as [r|]; [|reflexivity].
  destruct (r v); reflexivity.
Qed.

Lemma for_parameters_binds (ps : list GraphQLFunctionField)
  (kwargs acc : Dict.t PyVal) (trace : list event) :
  forallb (binds kwargs) ps = true ->
  for_parameters ps kwargs acc trace
  = (Ok (bound_kwargs ps kwargs acc), (trace ++ resolver_calls ps kwargs)%list).
Proof.
  revert acc trace. induction ps as [|p ps IH]; intros acc trace H.
  - cbn. now rewrite app_nil_r.
  - cbn [forallb] in H. apply andb_prop in H as [Hp Hps].
    rewrite for_parameters_cons.
    unfold binds in Hp. apply andb_prop in Hp as [Hnames Hget].
    rewrite Hnames. cbn [negb].
    unfold bound_kwargs, resolver_calls. cbn [fold_left flat_map].
    unfold incoming, forwarded, resolver_call.
    destruct (Dict.get (format_optional (field_name p)) kwargs) as [v|];
      [|discriminate].
    cbv zeta. destruct (is_not_None v); cbn in Hget.
    + destruct (field_resolver p) as [r|].
      * destruct (r v); [|discriminate].
        rewrite (IH _ _ Hps). now rewrite <- app_assoc.
      * now rewrite (IH _ _ Hps).
    + now rewrite (IH _ _ Hps).
Qed.




Lemma Dict_set_fresh {V} (k : string) (v : V) (d : Dict.t V) :
  ~ In k (Dict.keys d) -> Dict.set k v d = (d ++ [(k, v)])%list.
Proof.
  induction d as [|[k' v'] d IH]; intros Hk; [reflexivity|].
  cbn in *. destruct (String.eqb_spec k k') as [->|Hne].
  - exfalso. auto.
  - rewrite IH by tauto. reflexivity.
Qed.

Lemma bound_kwargs_fresh (ps : list GraphQLFunctionField) (kwargs acc : Dict.t PyVal) :
  NoDup (Dict.keys acc ++ map python_name ps)%list ->
  bound_kwargs ps kwargs acc
  = (acc ++ map (fun p => (python_name p, forwarded p (incoming kwargs p))) ps)%list.
Proof.
  revert acc. induction ps as [|p ps IH]; intros acc Hnd.
  - cbn. now rewrite app_nil_r.
  - unfold bound_kwargs in *. cbn [fold_left map].
    rewrite Dict_set_fresh.
    + rewrite IH.
      * now rewrite <- app_assoc.
      * unfold Dict.keys in *. rewrite map_app. cbn [map fst].
        rewrite <- app_assoc. exact Hnd.
    + cbn [map] in Hnd. apply NoDup_remove_2 in Hnd.
      intros Hin. apply Hnd. apply in_or_app. now left.
Qed.

(** C5. On a run in which every schema parameter has both names set, has
    its schema name among the incoming keyword arguments and has its
    resolver, if invoked, return: the wrapper looks each parameter's value
    up under the schema name, and returns what the decorated callable
    returns on the keyword arguments built in declaration order under the
    host (python) names; the only calls made are the resolver invocations,
    in declaration order, followed by the call of the callable.  A null
    value is forwarded as null with no resolver invocation; a non-null
    value of a parameter without resolver is forwarded unchanged; a
    non-null value of a parameter with a resolver is replaced by the
    resolver's result, the resolver being invoked once on it.  With
    pairwise distinct host names the keyword arguments are exactly one
    entry per parameter. *)
Theorem wrapper_binds_arguments (graphql_type : GraphQLFunction)
  (func : Dict.t PyVal -> result PyVal) (kwargs : Dict.t PyVal)
  (trace : list event) :
  forallb (binds kwargs) (parameters graphql_type) = true ->
  let ps := parameters graphql_type in
  let resolved_kwargs := bound_kwargs ps kwargs Dict.empty in
  _decorator graphql_type func kwargs trace
  = (func resolved_kwargs,
     (trace ++ resolver_calls ps kwargs ++ [FuncCall resolved_kwargs])%list)
  /\ (NoDup (map python_name ps) ->
      resolved_kwargs
      = map (fun p => (python_name p, forwarded p (incoming kwargs p))) ps)
  /\ (forall p, forwarded p PyNone = PyNone /\ resolver_call p PyNone = [])
  /\ (forall p v, is_not_None v = true -> field_resolver p = None ->
                  forwarded p v = v /\ resolver_call p v = [])
  /\ (forall p r v v', is_not_None v = true -> field_resolver p = Some r ->
                       r v = Ok v' ->
                       forwarded p v = v'
                       /\ resolver_call p v
                          = [ResolverCall (format_optional (field_name p)) v]).
Proof.
  intros Hb ps resolved_kwargs. repeat split.
  - unfold _decorator, bind. rewrite (for_parameters_binds _ _ _ _ Hb).
    unfold invoke. fold ps. fold resolved_kwargs. now rewrite <- app_assoc.
  - intros Hnd. unfold resolved_kwargs. now rewrite bound_kwargs_fresh.
  - unfold forwarded. now rewrite H, H0.
  - unfold resolver_call. now rewrite H, H0.
  - unfold forwarded. now rewrite H, H0, H1.
  - unfold resolver_call. now rewrite H, H0.
Qed.

Lemma wrapper_binds_arguments_witness :
  forallb (binds kwargs_null_page) (parameters find_signature) = true
  /\ _decorator find_signature echo kwargs_null_page []
     = (Ok (PyList [PyInt 20200131; PyNone]),
        [ResolverCall "day" (PyString "2020-01-31");
         FuncCall [("on_day", PyInt 20200131); ("page", PyNone)]]).
Proof.
  split; [reflexivity|].
  destruct (wrapper_binds_arguments find_signature echo kwargs_null_page [])
    as [H _]; [reflexivity | exact H].
Defined.





(* ================================================================== *)
(** * Nullability of lists in the type introspection engine *)
(* ================================================================== *)

Import TypeIntrospection.

Local Ltac run_resolve H :=
  cbn [resolve] in H;
  unfold bind, registered, read, ret, raise, lift in H;
  repeat match type of H with
         | context [match ?x with _ => _ end] => destruct x eqn:?
         end;
  try discriminate H; inversion H; subst; clear H.

(** What [resolve] returns can be referenced: [ref] finds its name. *)
Lemma resolve_referenceable (input_mode : bool) (T : Declaration) :
  forall excluded name s s' r n,
    resolve input_mode T excluded name s = (Ok (r, n), s') ->
    exists target, forall b, GraphQLDataType_ref r b = Ok (mkReference target b).
Proof.
  induction T as [p | T IH | T IH | identifier fields | identifier];
    intros excluded name s s' r n H.
  - run_resolve H. eexists; intros b; reflexivity.
  - cbn [resolve] in H. unfold bind, ret in H.
    destruct (resolve input_mode T excluded name s) as [[[r0 n0] | e] s1] eqn:E;
      [|discriminate].
    inversion H; subst. cbn [fst]. eapply IH; eauto.
  - run_resolve H. eexists; intros b; reflexivity.
  - run_resolve H; eexists; intros b; reflexivity.
  - discriminate H.
Qed.

(** Outside an optional wrapper, [resolve] answers non-nullable. *)
Lemma resolve_plain (input_mode : bool) (T : Declaration) :
  forall excluded name s s' r n,
    is_optional T = false ->
    resolve input_mode T excluded name s = (Ok (r, n), s') ->
    n = false.
Proof.
  destruct T as [p | T | T | identifier fields | identifier];
    intros excluded name s s' r n Hopt H; try discriminate Hopt.
  - run_resolve H. reflexivity.
  - run_resolve H. reflexivity.
  - run_resolve H; reflexivity.
  - discriminate H.
Qed.

(** C1. For every element type T that is not itself an optional wrapper
    and that the engine resolves: [List[T]] resolves to a list type whose
    inner reference is not nullable, the result being not nullable;
    [List[Optional[T]]] resolves to a list type whose inner reference is
    nullable; [Optional[List[T]]] resolves to a list type whose inner
    reference is not nullable, the result being nullable.  In the three
    cases the inner reference names what T resolves to, and the registry
    is left as resolving T leaves it. *)
Theorem resolve_list_nullability (input_mode : bool) (T : Declaration)
  (excluded : list string) (name : option string) (s s' : GraphQLSchema)
  (r : GraphQLDataType) (n : bool) :
  is_optional T = false ->
  resolve input_mode T excluded name s = (Ok (r, n), s') ->
  exists target,
    GraphQLDataType_ref r false = Ok (mkReference target false)
    /\ resolve input_mode (SequenceOf T) excluded name s
       = (Ok (DArray (DReference (mkReference target false)), false), s')
    /\ resolve input_mode (SequenceOf (OptionalOf T)) excluded name s
       = (Ok (DArray (DReference (mkReference target true)), false), s')
    /\ resolve input_mode (OptionalOf (SequenceOf T)) excluded name s
       = (Ok (DArray (DReference (mkReference target false)), true), s').
Proof.
  intros Hopt H.
  assert (n = false) as -> by (eapply resolve_plain; eauto).
  edestruct resolve_referenceable as (target & Href); [exact H|].
  exists target. split; [apply Href|].
  repeat split; cbn [resolve]; unfold bind, ret, lift; rewrite H; cbn [fst snd];
    now rewrite Href.
Qed.

Lemma resolve_list_nullability_witness :
  is_optional (Prim Pbool) = false
  /\ resolve false (SequenceOf (Prim Pbool)) [] None GraphQLSchema_init
     = (Ok (DArray (DReference (mkReference "Boolean" false)), false),
        GraphQLSchema_init)
  /\ resolve false (SequenceOf (OptionalOf (Prim Pbool))) [] None GraphQLSchema_init
     = (Ok (DArray (DReference (mkReference "Boolean" true)), false),
        GraphQLSchema_init)
  /\ resolve false (OptionalOf (SequenceOf (Prim Pbool))) [] None GraphQLSchema_init
     = (Ok (DArray (DReference (mkReference "Boolean" false)), true),
        GraphQLSchema_init).
Proof.
  split; [reflexivity|].
  destruct (resolve_list_nullability false (Prim Pbool) [] None
              GraphQLSchema_init (s' := GraphQLSchema_init)
              (r := DScalar GraphQLBoolean) (n := false))
    as (target & Href & H1 & H2 & H3); [reflexivity | reflexivity |].
  inversion Href; subst. repeat split; assumption.
Defined.

(* ================================================================== *)
(** * Facts about dictionaries *)
(* ================================================================== *)

Lemma Dict_contains_In {V} (k : string) (d : Dict.t V) :
  Dict.contains k d = true <-> In k (Dict.keys d).
Proof.
  induction d as [|[k' v] d IH]; cbn; [split; [discriminate | tauto]|].
  destruct (String.eqb_spec k k') as [->|Hne]; [tauto|].
  rewrite IH. split; [tauto | intros [H | H]; [congruence | exact H]].
Qed.

Lemma Dict_contains_get {V} (k : string) (d : Dict.t V) :
  Dict.contains k d = match Dict.get k d with Some _ => true | None => false end.
Proof.
  induction d as [|[k' v] d IH]; cbn; [reflexivity|].
  destruct (String.eqb k k'); [reflexivity | exact IH].
Qed.

Lemma Dict_get_set_same {V} (k : string) (v : V) (d : Dict.t V) :
  Dict.get k (Dict.set k v d) = Some v.
Proof.
  induction d as [|[k' v'] d IH]; cbn.
  - now rewrite String.eqb_refl.
  - destruct (String.eqb k k') eqn:E; cbn; rewrite E; [reflexivity | exact IH].
Qed.

Lemma Dict_get_set_other {V} (k n : string) (v : V) (d : Dict.t V) :
  n <> k -> Dict.get n (Dict.set k v d) = Dict.get n d.
Proof.
  intros Hne. induction d as [|[k' v'] d IH]; cbn.
  - destruct (String.eqb_spec n k); [contradiction | reflexivity].
  - destruct (String.eqb_spec k k') as [->|Hk]; cbn.
    + destruct (String.eqb_spec n k'); [contradiction | reflexivity].
    + destruct (String.eqb n k'); [reflexivity | exact IH].
Qed.

Lemma Dict_contains_set {V} (k n : string) (v : V) (d : Dict.t V) :
  Dict.contains n (Dict.set k v d) = String.eqb n k || Dict.contains n d.
Proof.
  rewrite !Dict_contains_get.
  destruct (String.eqb_spec n k) as [->|Hne].
  - now rewrite Dict_get_set_same.
  - now rewrite Dict_get_set_other.
Qed.

Lemma Dict_set_set {V} (k : string) (v w : V) (d : Dict.t V) :
  Dict.set k w (Dict.set k v d) = Dict.set k w d.
Proof.
  induction d as [|[k' v'] d IH]; cbn.
  - now rewrite String.eqb_refl.
  - destruct (String.eqb k k') eqn:E; cbn; rewrite E; [reflexivity | now rewrite IH].
Qed.

Lemma Dict_keys_set {V} (k : string) (v : V) (d : Dict.t V) :
  Dict.keys (Dict.set k v d)
  = if Dict.contains k d then Dict.keys d else (Dict.keys d ++ [k])%list.
Proof.
  induction d as [|[k' v'] d IH]; cbn; [reflexivity|].
  destruct (String.eqb k k'); cbn; [reflexivity|].
  unfold Dict.keys in IH. rewrite IH.
  destruct (Dict.contains k d); reflexivity.
Qed.

Lemma Dict_NoDup_set {V} (k : string) (v : V) (d : Dict.t V) :
  NoDup (Dict.keys d) -> NoDup (Dict.keys (Dict.set k v d)).
Proof.
  intros Hnd. rewrite Dict_keys_set.
  destruct (Dict.contains k d) eqn:E; [exact Hnd|].
  apply NoDup_app; [exact Hnd | repeat constructor; intros [] |].
  intros x Hx [<- | []].
  apply Dict_contains_In in Hx. congruence.
Qed.

Lemma keyed_set {V} (name : V -> string) (v : V) (d : Dict.t V) :
  keyed name d -> keyed name (Dict.set (name v) v d).
Proof.
  unfold keyed. induction 1 as [|[k' v'] d Hk Hd IH]; cbn.
  - repeat constructor.
  - destruct (String.eqb_spec (name v) k') as [<-|Hne]; constructor; auto.
Qed.

Lemma keyed_names {V} (name : V -> string) (d : Dict.t V) :
  keyed name d -> map name (Dict.values d) = Dict.keys d.
Proof.
  unfold keyed, Dict.values, Dict.keys.
  induction 1 as [|[k v] d Hk Hd IH]; cbn; [reflexivity|].
  cbn in Hk. now rewrite IH, Hk.
Qed.

(* ================================================================== *)
(** * Registrations, one after the other *)
(* ================================================================== *)

Local Ltac registration_cases :=
  cbn [run_registration name_free assigned registration_name];
  unfold add_type, add_input_type, add_scalar, add_query, add_mutation,
    type_name_free, scalar_name_free, function_name_free;
  rewrite checked_write
    by first [ apply check_type_name_conflict_state
             | apply check_function_name_conflict_state ];
  first [ rewrite check_type_name_conflict_cases
        | rewrite check_function_name_conflict_cases ];
  cbn [GT_name is_GraphQLScalar negb fst];
  rewrite ?andb_true_r, ?andb_false_r.

Lemma run_registration_free (op : registration) (self : GraphQLSchema) :
  name_free op self = true ->
  run_registration op self = (Ok tt, assigned op self).
Proof.
  destruct op; registration_cases;
    repeat match goal with
           | |- context [Dict.contains ?n ?d] => destruct (Dict.contains n d)
           end; cbn; intros H; try discriminate H; reflexivity.
Qed.

Lemma run_registration_taken (op : registration) (self : GraphQLSchema) :
  name_free op self = false ->
  exists kind,
    run_registration op self
    = (Raise (name_conflict (registration_name op) kind), self).
Proof.
  destruct op; registration_cases;
    repeat match goal with
           | |- context [Dict.contains ?n ?d] => destruct (Dict.contains n d)
           end; cbn; intros H; try discriminate H; eexists; reflexivity.
Qed.

(** X1. A registration succeeds exactly when its name is free for it: for
    an object type or an input type, when no input type, object type or
    scalar holds the name; for a scalar, when no input type and no object
    type holds it; for a query or a mutation, when no query and no mutation
    holds it, whatever the types are called.  On success the registry
    differs by the one dictionary assignment; otherwise the name-conflict
    exception is raised and the registry is the same. *)
Theorem registration_outcome (op : registration) (self : GraphQLSchema) :
  (name_free op self = true
   /\ run_registration op self = (Ok tt, assigned op self))
  \/ (name_free op self = false
      /\ exists kind,
          run_registration op self
          = (Raise (name_conflict (registration_name op) kind), self)).
Proof.
  destruct (name_free op self) eqn:E.
  - left. split; [reflexivity | now apply run_registration_free].
  - right. split; [reflexivity | now apply run_registration_taken].
Qed.

Lemma run_registration_ok (op : registration) (self self' : GraphQLSchema) :
  run_registration op self = (Ok tt, self') ->
  name_free op self = true /\ self' = assigned op self.
Proof.
  intros H. destruct (name_free op self) eqn:E.
  - rewrite (run_registration_free _ _ E) in H. inversion H. auto.
  - destruct (run_registration_taken _ _ E) as (kind & Hk).
    rewrite Hk in H. discriminate H.
Qed.

Lemma stored_assigned (op : registration) (self : GraphQLSchema) :
  stored op (assigned op self).
Proof. destruct op; cbn; apply Dict_get_set_same. Qed.

(** X2. After a registration that succeeded, looking its name up in its
    map gives the entity that was registered. *)
Theorem registered_entity_is_stored (op : registration)
  (self self' : GraphQLSchema) :
  run_registration op self = (Ok tt, self') -> stored op self'.
Proof.
  intros H. apply run_registration_ok in H as [_ ->]. apply stored_assigned.
Qed.

Lemma registered_entity_is_stored_witness :
  run_registration (RegisterType date_type) GraphQLSchema_init
  = (Ok tt, mkSchema [("Date", date_type)] [] [] [] [])
  /\ Dict.get "Date" (types (mkSchema [("Date", date_type)] [] [] [] []))
     = Some date_type.
Proof.
  split; [reflexivity|].
  apply (@registered_entity_is_stored (RegisterType date_type)
           GraphQLSchema_init). reflexivity.
Defined.

Lemma run_registration_state (op : registration) (self : GraphQLSchema) :
  snd (run_registration op self) = self
  \/ snd (run_registration op self) = assigned op self.
Proof.
  destruct (name_free op self) eqn:E.
  - right. now rewrite (run_registration_free _ _ E).
  - left. destruct (run_registration_taken _ _ E) as (kind & ->). reflexivity.
Qed.

(** X3. A registration, whether it succeeds or fails, leaves every entry
    stored under another name as it is, in each of the five maps, and
    removes no name from any of them. *)
Theorem registration_keeps_other_entries (op : registration)
  (self : GraphQLSchema) :
  let self' := snd (run_registration op self) in
  (forall n, n <> registration_name op ->
     Dict.get n (types self') = Dict.get n (types self)
     /\ Dict.get n (scalars self') = Dict.get n (scalars self)
     /\ Dict.get n (inputs self') = Dict.get n (inputs self)
     /\ Dict.get n (queries self') = Dict.get n (queries self)
     /\ Dict.get n (mutations self') = Dict.get n (mutations self))
  /\ (forall n,
        (Dict.contains n (types self) = true -> Dict.contains n (types self') = true)
        /\ (Dict.contains n (scalars self) = true
            -> Dict.contains n (scalars self') = true)
        /\ (Dict.contains n (inputs self) = true
            -> Dict.contains n (inputs self') = true)
        /\ (Dict.contains n (queries self) = true
            -> Dict.contains n (queries self') = true)
        /\ (Dict.contains n (mutations self) = true
            -> Dict.contains n (mutations self') = true)).
Proof.
  intros self'. subst self'.
  destruct (run_registration_state op self) as [-> | ->].
  - split; intros n; repeat split; auto.
  - split.
    + intros n Hn. destruct op; cbn in *;
        repeat split; try reflexivity; now apply Dict_get_set_other.
    + intros n. destruct op; cbn; repeat split; intros H; try exact H;
        rewrite Dict_contains_set, H; apply orb_true_r.
Qed.

Lemma registration_keeps_other_entries_witness :
  Dict.get "Date" (scalars (snd (run_registration (RegisterType (mkType "M" [] false))
                                   date_schema)))
  = Some GraphQLDate.
Proof.
  destruct (registration_keeps_other_entries (RegisterType (mkType "M" [] false))
              date_schema) as [H _].
  destruct (H "Date") as (_ & Hs & _); [discriminate|].
  rewrite Hs. reflexivity.
Defined.

Lemma negb_contains_false {V} (n : string) (d : Dict.t V) :
  negb (Dict.contains n d) = true -> Dict.contains n d = false.
Proof. now destruct (Dict.contains n d). Qed.

Lemma disjoint_names_set_l {V W} (k : string) (v : V) (d : Dict.t V) (d' : Dict.t W) :
  disjoint_names d d' -> Dict.contains k d' = false ->
  disjoint_names (Dict.set k v d) d'.
Proof.
  intros Hd Hk n. rewrite Dict_contains_set.
  destruct (String.eqb_spec n k) as [->|Hne]; cbn; auto.
Qed.

Lemma disjoint_names_set_r {V W} (k : string) (v : W) (d : Dict.t V) (d' : Dict.t W) :
  disjoint_names d d' -> Dict.contains k d = false ->
  disjoint_names d (Dict.set k v d').
Proof.
  intros Hd Hk n Hn. rewrite Dict_contains_set.
  destruct (String.eqb_spec n k) as [->|Hne]; cbn; [congruence | auto].
Qed.

Lemma registry_invariant_assigned (op : registration) (self : GraphQLSchema) :
  name_free op self = true ->
  registry_invariant self -> registry_invariant (assigned op self).
Proof.
  intros Hfree ((Kt & Ks & Ki & Kq & Km) & (Nt & Ns & Ni & Nq & Nm)
                & (Dti & Dst & Dsi & Dqm)).
  destruct op; cbn in Hfree |- *;
    unfold type_name_free, scalar_name_free, function_name_free in Hfree;
    repeat match type of Hfree with
           | _ && _ = true => apply andb_prop in Hfree as [Hfree ?]
           end;
    repeat match goal with
           | H : negb _ = true |- _ => apply negb_contains_false in H
           end;
    unfold registry_invariant; cbn;
    repeat split;
    auto using keyed_set, disjoint_names_set_l, disjoint_names_set_r;
    apply Dict_NoDup_set; assumption.
Qed.

Lemma registry_invariant_step (op : registration) (self : GraphQLSchema) :
  registry_invariant self ->
  registry_invariant (snd (run_registration op self)).
Proof.
  intros Hinv. destruct (name_free op self) eqn:E.
  - rewrite (run_registration_free _ _ E). now apply registry_invariant_assigned.
  - destruct (run_registration_taken _ _ E) as (kind & ->). exact Hinv.
Qed.

Lemma registry_invariant_init : registry_invariant GraphQLSchema_init.
Proof.
  unfold registry_invariant, keyed, disjoint_names; cbn.
  repeat split; try constructor; intros n H; discriminate H.
Qed.

Lemma registry_invariant_distinct (self : GraphQLSchema) :
  registry_invariant self -> distinct_names self.
Proof.
  intros ((Kt & Ks & Ki & Kq & Km) & (Nt & Ns & Ni & Nq & Nm) & _).
  unfold distinct_names.
  rewrite (keyed_names Kt), (keyed_names Ks), (keyed_names Ki),
    (keyed_names Kq), (keyed_names Km).
  auto.
Qed.

(** X4. Every registry built from the empty one by registrations keeps the
    same shape: each entity is stored under its own name, no map holds a
    key twice, no name is shared between the scalars, the object types and
    the input types, and none between the queries and the mutations; so no
    two entities of a map bear the same name. *)
Theorem reachable_registry_invariant (self : GraphQLSchema) :
  reachable self -> registry_invariant self /\ distinct_names self.
Proof.
  intros H.
  assert (Hinv : registry_invariant self).
  { induction H as [|self op _ IH];
      [apply registry_invariant_init | now apply registry_invariant_step]. }
  split; [exact Hinv | now apply registry_invariant_distinct].
Qed.

Lemma reachable_registry_invariant_witness :
  reachable date_schema
  /\ registry_invariant date_schema /\ distinct_names date_schema.
Proof.
  assert (H : reachable date_schema)
    by exact (reachable_step (RegisterScalar GraphQLDate) reachable_init).
  split; [exact H | exact (reachable_registry_invariant H)].
Defined.

Lemma name_taken_after (op op' : registration) (self : GraphQLSchema) :
  clashes op op' = true ->
  registration_name op' = registration_name op ->
  name_free op' (assigned op self) = false.
Proof.
  intros Hc Hn.
  destruct op, op'; try discriminate Hc; cbn in Hn |- *;
    unfold type_name_free, scalar_name_free, function_name_free; cbn;
    rewrite Hn, Dict_contains_set, String.eqb_refl; cbn;
    rewrite ?andb_false_r; reflexivity.
Qed.

(** X5. Once a registration has succeeded, a later registration under the
    same name fails with the name-conflict exception and changes nothing,
    when the two share a name space and are not both scalars: a type or an
    input after a type, an input or a scalar; a scalar after a type or an
    input; a query or a mutation after a query or a mutation. *)
Theorem second_registration_fails (op op' : registration)
  (self self' : GraphQLSchema) :
  run_registration op self = (Ok tt, self') ->
  clashes op op' = true ->
  registration_name op' = registration_name op ->
  exists kind,
    run_registration op' self'
    = (Raise (name_conflict (registration_name op) kind), self').
Proof.
  intros H Hc Hn. apply run_registration_ok in H as [_ ->].
  rewrite <- Hn. apply run_registration_taken. now apply name_taken_after.
Qed.

Lemma second_registration_fails_witness :
  run_registration (RegisterQuery get_signature) GraphQLSchema_init
  = (Ok tt, get_schema)
  /\ exists kind,
      run_registration (RegisterMutation get_signature) get_schema
      = (Raise (name_conflict "get" kind), get_schema).
Proof.
  split; [reflexivity|].
  apply (@second_registration_fails (RegisterQuery get_signature)
           (RegisterMutation get_signature) GraphQLSchema_init get_schema);
    reflexivity.
Defined.

(** X6. A scalar may be registered again under its name: after a scalar
    was registered, registering any scalar of that name succeeds, the new
    one takes the place of the old one without adding a key, and
    registering the same scalar again changes nothing at all. *)
Theorem scalar_registered_again (sc sc' : GraphQLScalar)
  (self self' : GraphQLSchema) :
  add_scalar sc self = (Ok tt, self') ->
  scalar_name sc' = scalar_name sc ->
  add_scalar sc' self'
  = (Ok tt, set_scalars (Dict.set (scalar_name sc) sc') self)
  /\ Dict.keys (scalars (set_scalars (Dict.set (scalar_name sc) sc') self))
     = Dict.keys (scalars self')
  /\ add_scalar sc self' = (Ok tt, self').
Proof.
  intros H Hn.
  apply (run_registration_ok (RegisterScalar sc)) in H as [Hfree ->].
  cbn in Hfree |- *.
  assert (Hagain : forall x, scalar_name x = scalar_name sc ->
            add_scalar x (set_scalars (Dict.set (scalar_name sc) sc) self)
            = (Ok tt, set_scalars (Dict.set (scalar_name sc) x) self)).
  { intros x Hx.
    assert (Hf : name_free (RegisterScalar x)
                   (set_scalars (Dict.set (scalar_name sc) sc) self) = true)
      by (cbn; now rewrite Hx).
    etransitivity; [exact (run_registration_free (RegisterScalar x) _ Hf)|].
    cbn [assigned]. unfold set_scalars; cbn. now rewrite Hx, Dict_set_set. }
  repeat split.
  - now apply Hagain.
  - change (Dict.keys (Dict.set (scalar_name sc) sc' (scalars self))
            = Dict.keys (Dict.set (scalar_name sc) sc (scalars self))).
    rewrite !Dict_keys_set. reflexivity.
  - now apply Hagain.
Qed.

Lemma scalar_registered_again_witness :
  add_scalar GraphQLDate GraphQLSchema_init = (Ok tt, date_schema)
  /\ add_scalar GraphQLDate date_schema = (Ok tt, date_schema).
Proof.
  split; [reflexivity|].
  destruct (@scalar_registered_again GraphQLDate GraphQLDate
              GraphQLSchema_init date_schema) as (_ & _ & H);
    [reflexivity | reflexivity | exact H].
Defined.

(* ================================================================== *)
(** * What the rendered schema depends on *)
(* ================================================================== *)

Lemma strongly_sorted_unique {A} (key : A -> string) (a : list A) :
  forall b,
    StronglySorted (key_le key) a -> StronglySorted (key_le key) b ->
    Permutation a b -> NoDup (map key a) -> a = b.
Proof.
  induction a as [|x a IH]; intros b Sa Sb P Nd.
  - apply Permutation_nil in P. now subst.
  - destruct b as [|y b].
    + apply Permutation_sym, Permutation_nil in P. discriminate P.
    + apply StronglySorted_inv in Sa as [Sa Fa].
      apply StronglySorted_inv in Sb as [Sb Fb].
      rewrite Forall_forall in Fa, Fb.
      cbn [map] in Nd. apply NoDup_cons_iff in Nd as [Hx Nd].
      assert (Hxy : x = y).
      { assert (Hin1 : In x (y :: b))
          by (eapply Permutation_in; [exact P | now left]).
        assert (Hin2 : In y (x :: a))
          by (eapply Permutation_in; [apply Permutation_sym; exact P | now left]).
        destruct Hin1 as [-> | Hin1]; [reflexivity|].
        destruct Hin2 as [-> | Hin2]; [reflexivity|].
        exfalso. apply Hx.
        assert (key x = key y) as ->
          by (apply String.leb_antisym; [apply Fa, Hin2 | apply Fb, Hin1]).
        now apply in_map. }
      subst y. f_equal. apply IH; auto.
      now apply Permutation_cons_inv in P.
Qed.

Lemma sorted_unique {A} (key : A -> string) (l1 l2 : list A) :
  Permutation l1 l2 -> NoDup (map key l1) ->
  sorted key l1 = sorted key l2.
Proof.
  intros P Nd. apply (strongly_sorted_unique (key := key)).
  - apply sorted_StronglySorted.
  - apply sorted_StronglySorted.
  - rewrite !sorted_perm. exact P.
  - eapply Permutation_NoDup; [|exact Nd].
    apply Permutation_map, Permutation_sym, sorted_perm.
Qed.

Lemma any_perm {A} (l1 l2 : list A) : Permutation l1 l2 -> any l1 = any l2.
Proof.
  intros P. destruct l1, l2; try reflexivity.
  - apply Permutation_nil in P. discriminate P.
  - apply Permutation_sym, Permutation_nil in P. discriminate P.
Qed.

(** X7. The rendered schema does not depend on the order in which the
    entities were registered: two registries that hold the same scalars,
    object types, input types, queries and mutations, no two entities of a
    map bearing the same name, render alike (to the same text, or to the
    same exception). *)
Theorem render_ignores_registration_order (a b : GraphQLSchema) :
  same_entities a b -> distinct_names a -> render a = render b.
Proof.
  intros (Ps & Pt & Pi & Pq & Pm) (Ns & Nt & Ni & Nq & Nm).
  unfold render, sort_and_write_functions.
  rewrite !sort_and_write_scalars, !sort_and_write_types.
  rewrite (@sorted_unique _ scalar_name _ _ Ps Ns),
    (@sorted_unique _ type_name _ _ Pt Nt), (@sorted_unique _ type_name _ _ Pi Ni),
    (@sorted_unique _ function_name _ _ Pq Nq),
    (@sorted_unique _ function_name _ _ Pm Nm).
  rewrite (any_perm Pq), (any_perm Pm). reflexivity.
Qed.

Local Ltac distinct_strings :=
  repeat constructor; cbn; intuition discriminate.

Lemma render_ignores_registration_order_witness :
  same_entities sample_schema sample_schema_swapped
  /\ distinct_names sample_schema
  /\ render sample_schema = render sample_schema_swapped.
Proof.
  assert (Hs : same_entities sample_schema sample_schema_swapped).
  { unfold same_entities; cbn. repeat split; try reflexivity. apply perm_swap. }
  assert (Hd : distinct_names sample_schema).
  { unfold distinct_names; cbn. repeat split; distinct_strings. }
  split; [exact Hs|]. split; [exact Hd|].
  exact (render_ignores_registration_order Hs Hd).
Defined.

(* ================================================================== *)
(** * When rendering fails, and when it gives no text *)
(* ================================================================== *)

Lemma comprehension_fields_raise (ps : list GraphQLFunctionField) :
  forallb has_type ps = false ->
  comprehension GraphQLFunctionField_render ps = Raise AssertionError.
Proof.
  induction ps as [|p ps IH]; cbn; [discriminate|].
  unfold GraphQLFunctionField_render at 1, has_type at 1.
  destruct (field_type p); cbn; [|reflexivity].
  intros H. now rewrite (IH H).
Qed.

Lemma GraphQLFunction_render_raise (f : GraphQLFunction) :
  well_typed f = false -> GraphQLFunction_render f = Raise AssertionError.
Proof.
  intros H. unfold GraphQLFunction_render.
  now rewrite (comprehension_fields_raise _ H).
Qed.

Lemma comprehension_functions_raise (fs : list GraphQLFunction) :
  forallb well_typed fs = false ->
  comprehension GraphQLFunction_render fs = Raise AssertionError.
Proof.
  induction fs as [|f fs IH]; cbn; [discriminate|].
  destruct (well_typed f) eqn:E; cbn.
  - intros H. now rewrite (GraphQLFunction_render_signature_eq _ E), (IH H).
  - intros _. now rewrite (GraphQLFunction_render_raise _ E).
Qed.

Lemma forallb_perm {A} (p : A -> bool) (l1 l2 : list A) :
  Permutation l1 l2 -> forallb p l1 = forallb p l2.
Proof.
  induction 1 as [| x l l' _ IH | x y l | l l' l'' _ IH1 _ IH2]; cbn.
  - reflexivity.
  - now rewrite IH.
  - destruct (p x), (p y); reflexivity.
  - now rewrite IH1.
Qed.

Lemma sort_and_write_functions_raise (fs : list GraphQLFunction) (as_mutation : bool) :
  forallb well_typed fs = false ->
  sort_and_write_functions fs as_mutation = Raise AssertionError.
Proof.
  intros H. unfold sort_and_write_functions.
  destruct fs as [|f fs]; [discriminate H|].
  rewrite any_cons. cbn [negb].
  rewrite comprehension_functions_raise; [reflexivity|].
  rewrite <- H. apply forallb_perm, sorted_perm.
Qed.

(** The text of a registry whose functions have typed parameters. *)
Lemma render_text (self : GraphQLSchema) :
  functions_well_typed self = true ->
  render self
  = Ok (join (NL ++ NL)
          (app (section_text (map GraphQLScalar_render
                                (sorted scalar_name (Dict.values (scalars self)))))
             (app (section_text (map GraphQLType_render
                                   (sorted type_name (Dict.values (types self)))))
                (app (section_text (map GraphQLType_render
                                      (sorted type_name (Dict.values (inputs self)))))
                   (app (block_text "Query"
                           (map signature
                              (sorted function_name (Dict.values (queries self)))))
                      (block_text "Mutation"
                         (map signature
                            (sorted function_name (Dict.values (mutations self)))))))))).
Proof.
  intros Hwt. unfold functions_well_typed in Hwt.
  apply andb_prop in Hwt as [Hq Hm]. unfold render.
  rewrite (sort_and_write_functions_eq _ false Hq).
  rewrite (sort_and_write_functions_eq _ true Hm).
  rewrite sort_and_write_scalars, !sort_and_write_types.
  rewrite !filter_section
    by (apply Forall_truthy_map;
        first [reflexivity | apply GraphQLType_render_truthy]).
  rewrite !filter_block. cbn [filter]. now rewrite app_nil_r.
Qed.

(** X8. Rendering fails exactly when some registered query or mutation has
    a parameter without a type, and then with an [AssertionError]; in the
    same way the signature of a single function is rendered exactly when
    all its parameters carry a type. *)
Theorem render_fails_on_untyped_parameter :
  (forall f : GraphQLFunction,
      (well_typed f = false <-> GraphQLFunction_render f = Raise AssertionError)
      /\ (well_typed f = true <-> exists text, GraphQLFunction_render f = Ok text))
  /\ (forall self : GraphQLSchema,
        (functions_well_typed self = false <-> render self = Raise AssertionError)
        /\ (functions_well_typed self = true <-> exists text, render self = Ok text)).
Proof.
  split.
  - intros f. destruct (well_typed f) eqn:E.
    + rewrite (GraphQLFunction_render_signature_eq _ E).
      repeat split; try discriminate; eauto.
    + rewrite (GraphQLFunction_render_raise _ E).
      repeat split; try discriminate; auto. intros (text & H). discriminate H.
  - intros self. destruct (functions_well_typed self) eqn:E.
    + rewrite (render_text _ E). repeat split; try discriminate; eauto.
    + assert (H : render self = Raise AssertionError).
      { unfold functions_well_typed in E. unfold render.
        destruct (forallb well_typed (Dict.values (queries self))) eqn:Eq.
        - cbn in E. rewrite (sort_and_write_functions_eq _ false Eq).
          now rewrite (sort_and_write_functions_raise _ true E).
        - now rewrite (sort_and_write_functions_raise _ false Eq). }
      rewrite H. repeat split; try discriminate; auto.
      intros (text & H'). discriminate H'.
Qed.

Lemma render_fails_on_untyped_parameter_witness :
  functions_well_typed untyped_schema = false
  /\ render untyped_schema = Raise AssertionError.
Proof.
  split; [reflexivity|].
  destruct render_fails_on_untyped_parameter as [_ H].
  destruct (H untyped_schema) as [[H1 _] _]. apply H1. reflexivity.
Defined.

Lemma render_raise (self : GraphQLSchema) :
  functions_well_typed self = false -> render self = Raise AssertionError.
Proof.
  intros E. unfold functions_well_typed in E. unfold render.
  destruct (forallb well_typed (Dict.values (queries self))) eqn:Eq.
  - cbn in E. rewrite (sort_and_write_functions_eq _ false Eq).
    now rewrite (sort_and_write_functions_raise _ true E).
  - now rewrite (sort_and_write_functions_raise _ false Eq).
Qed.

Lemma join_empty (sep : string) (l : list string) :
  Forall (fun s => truthy s = true) l -> join sep l = "" -> l = [].
Proof.
  intros Hf Hj. destruct l as [|x l]; [reflexivity|].
  inversion Hf; subst.
  assert (Ht : truthy (join sep (x :: l)) = true) by now apply join_truthy.
  rewrite Hj in Ht. discriminate Ht.
Qed.

Lemma section_text_nil {A} (f : A -> string) (key : A -> string) (d : Dict.t A) :
  section_text (map f (sorted key (Dict.values d))) = [] -> d = [].
Proof.
  intros H. destruct (map f (sorted key (Dict.values d))) eqn:E; [|discriminate H].
  apply map_eq_nil, sorted_nil_iff in E. now apply map_eq_nil in E.
Qed.

Lemma block_text_nil {A} (decl : string) (f : A -> string) (key : A -> string)
  (d : Dict.t A) :
  block_text decl (map f (sorted key (Dict.values d))) = [] -> d = [].
Proof.
  intros H. destruct (map f (sorted key (Dict.values d))) eqn:E; [|discriminate H].
  apply map_eq_nil, sorted_nil_iff in E. now apply map_eq_nil in E.
Qed.

(** X9. [render] returns the empty text exactly when the registry holds
    nothing: no scalar, no object type, no input type, no query and no
    mutation. *)
Theorem render_empty_text (self : GraphQLSchema) :
  render self = Ok "" <-> is_empty self = true.
Proof.
  split.
  - intros H. destruct (functions_well_typed self) eqn:E.
    + rewrite (render_text _ E) in H. inversion H as [Hj]. clear H.
      apply join_empty in Hj.
      * apply app_eq_nil in Hj as [H1 Hj]. apply app_eq_nil in Hj as [H2 Hj].
        apply app_eq_nil in Hj as [H3 Hj]. apply app_eq_nil in Hj as [H4 H5].
        apply section_text_nil in H1, H2, H3. apply block_text_nil in H4, H5.
        unfold is_empty. now rewrite H1, H2, H3, H4, H5.
      * repeat (apply Forall_app; split);
          auto using block_text_truthy;
          apply section_text_truthy, Forall_truthy_map;
          first [reflexivity | apply GraphQLType_render_truthy].
    + rewrite (render_raise _ E) in H. discriminate H.
  - intros H. destruct self as [t sc i q m]. unfold is_empty in H. cbn in H.
    destruct t; [|discriminate H]. destruct sc; [|discriminate H].
    destruct i; [|discriminate H]. destruct q; [|discriminate H].
    destruct m; [|discriminate H]. reflexivity.
Qed.

Lemma render_empty_text_witness :
  render GraphQLSchema_init = Ok "" /\ is_empty GraphQLSchema_init = true.
Proof.
  split; [|reflexivity].
  apply (render_empty_text GraphQLSchema_init). reflexivity.
Defined.

(** X10. Whatever the name and the attributes of a type are made of, white
    space and line breaks included, [strip()] takes away nothing but the
    padding of the template: the rendered type is the keyword, the name and
    the opening brace, the attributes behind four spaces and joined by a
    line break and four spaces, and the closing brace on its own line.  A
    type without attribute renders with a body line of four spaces. *)
Theorem GraphQLType_render_padding (name : string)
  (attrs : list GraphQLTypeAttribute) (as_input : bool) :
  GraphQLType_render (mkType name attrs as_input)
  = (if as_input then "input" else "type") ++ " " ++ name ++ " {" ++ NL
    ++ "    " ++ join (NL ++ "    ") (map GraphQLTypeAttribute_render attrs)
    ++ NL ++ "}"
  /\ GraphQLType_render (mkType name [] as_input)
     = (if as_input then "input" else "type") ++ " " ++ name ++ " {" ++ NL
       ++ "    " ++ NL ++ "}".
Proof.
  split; rewrite GraphQLType_render_eq; reflexivity.
Qed.

(* ================================================================== *)
(** * The calls a run of the wrapper makes *)
(* ================================================================== *)

Lemma Dict_keys_set_In {V} (k n : string) (v : V) (d : Dict.t V) :
  In n (Dict.keys (Dict.set k v d)) <-> n = k \/ In n (Dict.keys d).
Proof.
  rewrite <- !Dict_contains_In, Dict_contains_set.
  destruct (String.eqb_spec n k) as [->|Hne]; cbn; [tauto|].
  split; [tauto | intros [H | H]; [contradiction | exact H]].
Qed.

Lemma for_parameters_outcome (ps : list GraphQLFunctionField)
  (kwargs : Dict.t PyVal) :
  forall acc trace,
  exists evs,
    Forall is_ResolverCall_not_None evs
    /\ ((exists e, for_parameters ps kwargs acc trace = (Raise e, (trace ++ evs)%list))
        \/ (exists kw,
              for_parameters ps kwargs acc trace = (Ok kw, (trace ++ evs)%list)
              /\ forall k, In k (Dict.keys kw)
                           <-> In k (Dict.keys acc) \/ In k (map python_name ps))).
Proof.
  induction ps as [|p ps IH]; intros acc trace.
  - exists []. split; [constructor|]. right. exists acc. cbn.
    rewrite app_nil_r. split; [reflexivity | tauto].
  - rewrite for_parameters_cons.
    assert (Hnext : forall v evs0,
               Forall is_ResolverCall_not_None evs0 ->
               exists evs,
                 Forall is_ResolverCall_not_None evs
                 /\ ((exists e,
                         for_parameters ps kwargs (Dict.set (python_name p) v acc)
                           (trace ++ evs0)%list = (Raise e, (trace ++ evs)%list))
                     \/ (exists kw,
                           for_parameters ps kwargs (Dict.set (python_name p) v acc)
                             (trace ++ evs0)%list = (Ok kw, (trace ++ evs)%list)
                           /\ forall k, In k (Dict.keys kw)
                                        <-> In k (Dict.keys acc)
                                            \/ In k (map python_name (p :: ps))))).
    { intros v evs0 H0.
      destruct (IH (Dict.set (python_name p) v acc) (trace ++ evs0)%list)
        as (evs & Hf & Hr).
      exists (evs0 ++ evs)%list. split; [now apply Forall_app|].
      rewrite app_assoc.
      destruct Hr as [(e & He) | (kw & Hk & Hkeys)]; [left; eauto|].
      right. exists kw. split; [exact Hk|].
      intros k. rewrite Hkeys, Dict_keys_set_In. cbn [map In].
      intuition congruence. }
    assert (Hstop : forall e,
               exists evs,
                 Forall is_ResolverCall_not_None evs
                 /\ ((exists e', (@Raise (Dict.t PyVal) e, trace)
                                  = (Raise e', (trace ++ evs)%list))
                     \/ (exists kw,
                           (@Raise (Dict.t PyVal) e, trace) = (Ok kw, (trace ++ evs)%list)
                           /\ forall k, In k (Dict.keys kw)
                                        <-> In k (Dict.keys acc)
                                            \/ In k (map python_name (p :: ps))))).
    { intros e. exists []. split; [constructor|]. left. exists e.
      now rewrite app_nil_r. }
    destruct (negb _); [apply Hstop|]. cbv zeta.
    destruct (Dict.get _ kwargs) as [v|]; [|apply Hstop].
    destruct (is_not_None v) eqn:Ev.
    + destruct (field_resolver p) as [r|].
      * destruct (r v) as [v'|e].
        -- apply (Hnext v' [ResolverCall (format_optional (field_name p)) v]).
           repeat constructor. exact Ev.
        -- exists [ResolverCall (format_optional (field_name p)) v].
           split; [repeat constructor; exact Ev|]. left. eauto.
      * destruct (Hnext v []) as (evs & Hf & Hr); [constructor|].
        rewrite app_nil_r in Hr. eauto.
    + destruct (Hnext PyNone []) as (evs & Hf & Hr); [constructor|].
      rewrite app_nil_r in Hr. eauto.
Qed.

(** X11. In every run of the wrapper the resolvers are invoked on values
    that are not null only, and the decorated callable is invoked at most
    once, after all of them: either the wrapper raises without having
    invoked the callable, or it invokes the callable last and answers as
    the callable does, with keyword arguments whose keys are exactly the
    host names of the schema parameters; the injected parameters are not
    among what the wrapper passes. *)
Theorem wrapper_call_discipline (graphql_type : GraphQLFunction)
  (func : Dict.t PyVal -> result PyVal) (kwargs : Dict.t PyVal)
  (trace : list event) :
  exists evs,
    Forall is_ResolverCall_not_None evs
    /\ ((exists e,
           _decorator graphql_type func kwargs trace = (Raise e, (trace ++ evs)%list))
        \/ (exists kw,
              _decorator graphql_type func kwargs trace
              = (func kw, (trace ++ evs ++ [FuncCall kw])%list)
              /\ forall k, In k (Dict.keys kw)
                           <-> In k (map python_name (parameters graphql_type)))).
Proof.
  destruct (for_parameters_outcome (parameters graphql_type) kwargs Dict.empty trace)
    as (evs & Hf & [(e & He) | (kw & Hk & Hkeys)]);
    exists evs; (split; [exact Hf|]); unfold _decorator, bind.
  - left. exists e. now rewrite He.
  - right. exists kw. rewrite Hk. unfold invoke. rewrite app_assoc.
    split; [reflexivity|]. intros k. rewrite Hkeys. cbn. tauto.
Qed.

Lemma for_parameters_same_values (ps : list GraphQLFunctionField)
  (kwargs kwargs' : Dict.t PyVal) :
  (forall p, In p ps ->
     Dict.get (format_optional (field_name p)) kwargs
     = Dict.get (format_optional (field_name p)) kwargs') ->
  forall acc trace,
    for_parameters ps kwargs acc trace = for_parameters ps kwargs' acc trace.
Proof.
  induction ps as [|p ps IH]; intros H acc trace; [reflexivity|].
  rewrite !for_parameters_cons. cbv zeta.
  rewrite <- (H p) by now left.
  assert (IH' := IH (fun q Hq => H q (or_intror Hq))).
  destruct (negb _); [reflexivity|].
  destruct (Dict.get _ kwargs) as [v|]; [|reflexivity].
  destruct (is_not_None v); [|apply IH'].
  destruct (field_resolver p) as [r|]; [|apply IH'].
  destruct (r v); [apply IH' | reflexivity].
Qed.

(** X12. The wrapper reads the incoming keyword arguments under the schema
    names of the parameters and nowhere else: two sets of keyword arguments
    that agree under every schema name give the same run, so that an entry
    under any other key is dropped without notice. *)
Theorem wrapper_ignores_other_keys (graphql_type : GraphQLFunction)
  (func : Dict.t PyVal -> result PyVal) (kwargs kwargs' : Dict.t PyVal)
  (trace : list event) :
  (forall p, In p (parameters graphql_type) ->
     Dict.get (format_optional (field_name p)) kwargs
     = Dict.get (format_optional (field_name p)) kwargs') ->
  _decorator graphql_type func kwargs trace
  = _decorator graphql_type func kwargs' trace.
Proof.
  intros H. unfold _decorator, bind.
  now rewrite (for_parameters_same_values _ _ _ H).
Qed.

Lemma wrapper_ignores_other_keys_witness :
  Dict.get "context" kwargs_with_context = Some (PyString "request")
  /\ _decorator find_signature echo kwargs_with_context []
     = _decorator find_signature echo kwargs_null_page [].
Proof.
  split; [reflexivity|].
  apply wrapper_ignores_other_keys.
  intros p [<- | [<- | []]]; reflexivity.
Defined.

(* ================================================================== *)
(** * References and parameters *)
(* ================================================================== *)

(** X13. Taking a reference and rendering it: the reference of an object
    or input type and the reference of a scalar render as the bare name,
    the reference of a list as the bracketed rendering of its item, each
    followed by '!' exactly when the reference is not nullable; a reference
    has no reference of its own, asking for one raises
    [NotImplementedError]. *)
Theorem reference_of_rendering (d : GraphQLDataType) (b : bool) :
  match d with
  | DReference _ => GraphQLDataType_ref d b = Raise NotImplementedError
  | DType t =>
      exists r, GraphQLDataType_ref d b = Ok r /\ nullable r = b
                /\ GraphQLReference_render r
                   = type_name t ++ (if b then "" else "!")
  | DScalar s =>
      exists r, GraphQLDataType_ref d b = Ok r /\ nullable r = b
                /\ GraphQLReference_render r
                   = scalar_name s ++ (if b then "" else "!")
  | DArray item =>
      exists r, GraphQLDataType_ref d b = Ok r /\ nullable r = b
                /\ GraphQLReference_render r
                   = "[" ++ GraphQLDataType_render item ++ "]"
                     ++ (if b then "" else "!")
  end.
Proof.
  destruct d; cbn [GraphQLDataType_ref]; try reflexivity;
    eexists; (split; [reflexivity|]); (split; [reflexivity|]).
  - reflexivity.
  - unfold GraphQLReference_render, GraphQLArray_render. cbn.
    now rewrite append_assoc.
  - reflexivity.
Qed.

(** X14. An injected parameter added to a function changes neither its
    rendered signature nor any run of its wrapper.  A schema parameter
    with a type, added to a function whose parameters have types, comes
    last in the parenthesised list of the rendered signature, which then
    has parentheses in any case. *)
Theorem added_parameters (f : GraphQLFunction) :
  (forall injected,
      GraphQLFunction_render (add_injected_parameter f injected)
      = GraphQLFunction_render f
      /\ forall func kwargs trace,
          _decorator (add_injected_parameter f injected) func kwargs trace
          = _decorator f func kwargs trace)
  /\ (forall p,
        well_typed f = true -> has_type p = true ->
        GraphQLFunction_render (add_parameter f p)
        = Ok (function_name f
              ++ "(" ++ join ", " (app (map field_text (parameters f)) [field_text p])
              ++ ")" ++ ": " ++ GraphQLDataType_render (return_type f))).
Proof.
  split.
  - intros injected. split; reflexivity.
  - intros p Hf Hp.
    assert (Hwt : well_typed (add_parameter f p) = true).
    { unfold well_typed in *. cbn. rewrite forallb_app, Hf. cbn. now rewrite Hp. }
    rewrite (GraphQLFunction_render_eq _ Hwt). cbn [add_parameter parameters
      function_name return_type].
    rewrite map_app. cbn [map].
    destruct (parameters f); cbn [app]; now rewrite !append_assoc.
Qed.

Lemma added_parameters_witness :
  GraphQLFunction_render
    (add_parameter (mkFunction "all" (DReference (mkReference "[M!]" false)) [] [])
       (mkField None (Some "limit") (Some (DReference (mkReference "Int" true)))
          "limit"))
  = Ok "all(limit: Int): [M!]!".
Proof.
  destruct (added_parameters
              (mkFunction "all" (DReference (mkReference "[M!]" false)) [] []))
    as [_ H].
  apply (H (mkField None (Some "limit") (Some (DReference (mkReference "Int" true)))
              "limit")); reflexivity.
Defined.
